(** * ConfigManager (config_manager.py): cached JSON documents, .env settings
      and the lazily built device index.

    The class is embedded as a record of its attributes plus the part of the
    outside world it touches (files, process environment).  Methods are
    computations in a small state-and-exception monad, so that a [try] block,
    an early [return] and a mutation of [self] read as they do in the source. *)

From Stdlib Require Import Ascii String.
From stdpp Require Import gmap strings list fin_maps sorting pretty.

Open Scope string_scope.
Set Warnings "-register-all,-clear-no-such-hyp".

(** ** Python values *)

(** The JSON-shaped part of Python's value space: what [json.load] builds
    (floats apart) and what the documents of this tool hold.  A [dict] keeps
    its insertion order, which [json.dump] prints. *)
Inductive pyval : Type :=
  | PNone
  | PBool (b : bool)
  | PInt (z : Z)
  | PStr (s : string)
  | PList (l : list pyval)
  | PDict (d : list (string * pyval)).

(** Hashable values as dictionary keys.  [True == 1] and [False == 0] hash
    alike, so booleans and integers share the numeric keys. *)
Inductive pykey : Type :=
  | KNone
  | KNum (z : Z)
  | KStr (s : string).

Global Instance pykey_eq_dec : EqDecision pykey.
Proof. solve_decision. Defined.

Global Instance pykey_countable : Countable pykey.
Proof.
  refine (inj_countable'
    (λ k, match k with
          | KNone => inl ()
          | KNum z => inr (inl z)
          | KStr s => inr (inr s)
          end)
    (λ x, match x with
          | inl _ => KNone
          | inr (inl z) => KNum z
          | inr (inr s) => KStr s
          end) _).
  by intros [].
Defined.

(** The exceptions that the modelled operations can raise.  Every one of them
    derives from [Exception]. *)
Inductive exn : Type :=
  | KeyError
  | TypeError
  | FileNotFoundError
  | FileExistsError
  | NotADirectoryError
  | IsADirectoryError
  | PermissionError
  | ValueError
  | JSONDecodeError
  | RecursionError.

Global Instance exn_eq_dec : EqDecision exn.
Proof. solve_decision. Defined.

Inductive Result (A : Type) : Type :=
  | Ok (a : A)
  | Raise (e : exn).
Arguments Ok {A} a.
Arguments Raise {A} e.

(** [hash(v)]: lists and dicts are unhashable. *)
Definition py_hash (v : pyval) : Result pykey :=
  match v with
  | PNone => Ok KNone
  | PBool b => Ok (KNum (if b then 1 else 0))
  | PInt z => Ok (KNum z)
  | PStr s => Ok (KStr s)
  | PList _ | PDict _ => Raise TypeError
  end.

(** [d[key]] for a string key. *)
Fixpoint assoc_lookup (key : string) (d : list (string * pyval)) : option pyval :=
  match d with
  | [] => None
  | (k, v) :: d' => if decide (k = key) then Some v else assoc_lookup key d'
  end.

Definition py_getitem (v : pyval) (key : string) : Result pyval :=
  match v with
  | PDict d =>
      match assoc_lookup key d with
      | Some x => Ok x
      | None => Raise KeyError
      end
  | _ => Raise TypeError
  end.

Fixpoint string_chars (s : string) : list pyval :=
  match s with
  | EmptyString => []
  | String c s' => PStr (String c EmptyString) :: string_chars s'
  end.

(** [for d in v]: a list yields its items, a dict its keys, a string its
    characters; nothing else is iterable. *)
Definition py_iter (v : pyval) : Result (list pyval) :=
  match v with
  | PList l => Ok l
  | PDict d => Ok (map (λ kv, PStr kv.1) d)
  | PStr s => Ok (string_chars s)
  | _ => Raise TypeError
  end.

(** ** Paths and the file system *)

(** A [pathlib.Path] by its [parts]; ["."] is the empty list. *)
Abbreviation Path := (list string).

Definition path_join (p : Path) (name : string) : Path := p ++ [name].
Infix "//" := path_join (at level 40, left associativity).

Definition path_parent (p : Path) : Path :=
  match p with
  | ["/"] => p
  | _ => removelast p
  end.

(** Regular files with their text (as Python's text layer presents it),
    directories, and the paths that the process is not allowed to open.
    The text layer presents a carriage return of the file as a line break;
    the model keeps text as it was written, so the statements about text
    that is written and read again are made for text without carriage
    returns. *)
Record FileSystem : Type := mkFS {
  fs_files : gmap Path string;
  fs_dirs : gset Path;
  fs_denied : gset Path
}.

Definition with_files (f : gmap Path string → gmap Path string) (fs : FileSystem) : FileSystem :=
  {| fs_files := f (fs_files fs); fs_dirs := fs_dirs fs; fs_denied := fs_denied fs |}.

(** [Path.exists()] *)
Definition path_exists (p : Path) (fs : FileSystem) : bool :=
  bool_decide (is_Some (fs_files fs !! p)) || bool_decide (p ∈ fs_dirs fs).

(** The paths strictly above [p], from ["."] down to its parent. *)
Fixpoint proper_prefixes (p : Path) : list Path :=
  match p with
  | [] => []
  | x :: p' => [] :: map (cons x) (proper_prefixes p')
  end.

(** A component of the path above its last one is a regular file: the
    system answers ENOTDIR. *)
Definition below_file (p : Path) (fs : FileSystem) : bool :=
  existsb (λ q, bool_decide (is_Some (fs_files fs !! q))) (proper_prefixes p).

(** Opening for reading returns the whole text. *)
Definition fs_open_r (p : Path) (fs : FileSystem) : Result string :=
  if decide (p ∈ fs_denied fs) then Raise PermissionError
  else if below_file p fs then Raise NotADirectoryError
  else if decide (p ∈ fs_dirs fs) then Raise IsADirectoryError
  else match fs_files fs !! p with
       | Some text => Ok text
       | None => Raise FileNotFoundError
       end.

(** Opening for writing truncates the file, creating it when needed. *)
Definition fs_open_w (p : Path) (fs : FileSystem) : Result FileSystem :=
  if decide (p ∈ fs_denied fs) then Raise PermissionError
  else if below_file p fs then Raise NotADirectoryError
  else if decide (p ∈ fs_dirs fs) then Raise IsADirectoryError
  else if decide (path_parent p ∈ fs_dirs fs) then Ok (with_files (<[p := ""]>) fs)
  else Raise FileNotFoundError.

(** [f.write(text)] on a file open for writing. *)
Definition fs_append (p : Path) (text : string) (fs : FileSystem) : FileSystem :=
  with_files (λ m, <[p := default "" (m !! p) +:+ text]> m) fs.

Fixpoint path_prefixes (p : Path) : list Path :=
  match p with
  | [] => [[]]
  | x :: p' => [] :: map (cons x) (path_prefixes p')
  end.

(** [Path.mkdir(exist_ok=True, parents=True)] *)
Definition fs_mkdir_p (p : Path) (fs : FileSystem) : Result FileSystem :=
  if decide (p ∈ fs_dirs fs) then Ok fs
  else if bool_decide (is_Some (fs_files fs !! p)) then Raise FileExistsError
  else if existsb (λ q, bool_decide (is_Some (fs_files fs !! q))) (path_prefixes p)
       then Raise NotADirectoryError
  else if existsb (λ q, bool_decide (q ∈ fs_denied fs)) (path_prefixes p)
       then Raise PermissionError
  else Ok {| fs_files := fs_files fs;
             fs_dirs := list_to_set (path_prefixes p) ∪ fs_dirs fs;
             fs_denied := fs_denied fs |}.

(** ** Library functions the class calls *)

(** [json.load], [json.dump(..., indent=2)] and [dotenv.load_dotenv] belong
    to libraries, not to this repository; the development is parametric in
    them.  [json_dump] gives the text that reaches the file and the
    exception that interrupted the encoder, if any. *)
Class PyLib : Type := {
  json_load : string → Result pyval;
  json_dump : pyval → string * option exn;
  load_dotenv : Path → FileSystem → gmap string string → Result (gmap string string)
}.

(** ** The object and the machine state *)

Record ConfigManager : Type := mkConfigManager {
  config_dir : Path;
  mobile_devices_path : Path;
  telegram_entities_path : Path;
  env_file_path : Path;
  example_env_file : Path;
  sessions_dir : Path;
  default_env_settings : gmap string string;
  _config_cache : gmap Path pyval;
  (** loaded lazily; [__init__] leaves it at [None] *)
  _session_manager : option unit;
  (** [None] when the attribute is absent ([hasattr] is false) *)
  _device_index : option (gmap pykey pyval)
}.

Record State : Type := mkState {
  self : ConfigManager;
  fs : FileSystem;
  environ : gmap string string
}.

Definition set_cache (c : gmap Path pyval) (st : State) : State :=
  let s := self st in
  {| self := {| config_dir := config_dir s;
                mobile_devices_path := mobile_devices_path s;
                telegram_entities_path := telegram_entities_path s;
                env_file_path := env_file_path s;
                example_env_file := example_env_file s;
                sessions_dir := sessions_dir s;
                default_env_settings := default_env_settings s;
                _config_cache := c;
                _session_manager := _session_manager s;
                _device_index := _device_index s |};
     fs := fs st; environ := environ st |}.

Definition set_device_index (ix : option (gmap pykey pyval)) (st : State) : State :=
  let s := self st in
  {| self := {| config_dir := config_dir s;
                mobile_devices_path := mobile_devices_path s;
                telegram_entities_path := telegram_entities_path s;
                env_file_path := env_file_path s;
                example_env_file := example_env_file s;
                sessions_dir := sessions_dir s;
                default_env_settings := default_env_settings s;
                _config_cache := _config_cache s;
                _session_manager := _session_manager s;
                _device_index := ix |};
     fs := fs st; environ := environ st |}.

Definition set_fs (f : FileSystem) (st : State) : State :=
  {| self := self st; fs := f; environ := environ st |}.

Definition set_environ (env : gmap string string) (st : State) : State :=
  {| self := self st; fs := fs st; environ := env |}.

(** ** The monad of methods *)

(** A method runs on the state and returns a value or raises; the state it
    leaves is kept in both cases, as Python keeps side effects made before an
    exception. *)
Definition Py (A : Type) : Type := State → Result A * State.

Global Instance Py_ret : MRet Py := λ A a st, (Ok a, st).

Global Instance Py_bind : MBind Py := λ A B k m st,
  match m st with
  | (Ok a, st') => k a st'
  | (Raise e, st') => (Raise e, st')
  end.

Definition raise {A} (e : exn) : Py A := λ st, (Raise e, st).

Definition lift_result {A} (r : Result A) : Py A := λ st, (r, st).

(** [try: body except <classes>: handler] *)
Definition try_except {A} (body : Py A) (caught : exn → bool) (handler : exn → Py A) : Py A :=
  λ st, match body st with
        | (Raise e, st') => if caught e then handler e st' else (Raise e, st')
        | r => r
        end.

(** [except Exception]: every modelled exception derives from it. *)
Definition Exception (e : exn) : bool := true.

Definition get_state : Py State := λ st, (Ok st, st).
Definition modify (f : State → State) : Py unit := λ st, (Ok (), f st).

Definition open_r (p : Path) : Py string := λ st, (fs_open_r p (fs st), st).

Definition open_w (p : Path) : Py unit :=
  λ st, match fs_open_w p (fs st) with
        | Ok f => (Ok (), set_fs f st)
        | Raise e => (Raise e, st)
        end.

(** [f.write(text)] on the open file: the text reaches the file.  A device
    that fails under a write, a flush or the close of the [with] block is
    not modelled; such a failure is an exception inside the [try] of the
    caller, which then returns [False] like for the failures modelled. *)
Definition f_write (p : Path) (text : string) : Py unit :=
  modify (λ st, set_fs (fs_append p text (fs st)) st).

(** [for x in xs: body x] *)
Fixpoint for_each {A} (xs : list A) (body : A → Py unit) : Py unit :=
  match xs with
  | [] => mret ()
  | x :: xs' => body x;; for_each xs' body
  end.

(** ** Strings *)

(** Characters are code points below 256. *)
Definition newline : ascii := "010"%char.
Definition equals_sign : ascii := "="%char.
Definition single_quote : ascii := "'"%char.
Definition double_quote : ascii := "034"%char.

(** [str.isspace] on one character, as [str.strip()] uses it. *)
Definition is_py_space (c : ascii) : bool :=
  let n := N_of_ascii c in
  ((9 <=? n) && (n <=? 13) || (28 <=? n) && (n <=? 32) || (n =? 133) || (n =? 160))%N.

Fixpoint lstrip_by (p : ascii → bool) (s : string) : string :=
  match s with
  | EmptyString => EmptyString
  | String c s' => if p c then lstrip_by p s' else s
  end.

Definition rstrip_by (p : ascii → bool) (s : string) : string :=
  String.rev (lstrip_by p (String.rev s)).

(** [s.strip()] *)
Definition str_strip (s : string) : string :=
  rstrip_by is_py_space (lstrip_by is_py_space s).

(** [s.strip(chars)] *)
Definition str_strip_chars (chars : list ascii) (s : string) : string :=
  let p c := bool_decide (c ∈ chars) in
  rstrip_by p (lstrip_by p s).

(** [c in s] *)
Fixpoint str_contains (c : ascii) (s : string) : bool :=
  match s with
  | EmptyString => false
  | String c' s' => bool_decide (c' = c) || str_contains c s'
  end.

(** [s.split(sep, 1)] for a one-character separator *)
Fixpoint str_split1 (sep : ascii) (s : string) : list string :=
  match s with
  | EmptyString => [EmptyString]
  | String c s' =>
      if decide (c = sep) then [EmptyString; s']
      else match str_split1 sep s' with
           | [] => [String c EmptyString]
           | h :: t => String c h :: t
           end
  end.

(** [k, v = parts] *)
Definition unpack2 (parts : list string) : Result (string * string) :=
  match parts with
  | [k; v] => Ok (k, v)
  | _ => Raise ValueError
  end.

(** [for line in f]: the lines of a text, each with its newline. *)
Fixpoint readlines (text : string) : list string :=
  match text with
  | EmptyString => []
  | String c text' =>
      if decide (c = newline) then String c EmptyString :: readlines text'
      else match readlines text' with
           | [] => [String c EmptyString]
           | l :: ls => String c l :: ls
           end
  end.

Fixpoint str_concat (parts : list string) : string :=
  match parts with
  | [] => EmptyString
  | p :: ps => p +:+ str_concat ps
  end.

(** [sorted(keys)]: strings compare by code point. *)
Definition sorted (keys : list string) : list string := merge_sort String.le keys.

(** [os.getenv(key, default)] *)
Definition os_getenv (environ : gmap string string) (key default : string) : string :=
  match environ !! key with
  | Some v => v
  | None => default
  end.

(** ** The .env file *)

(** The body of the reading loop of [save_env_settings]. *)
Definition read_env_line (env_data : gmap string string) (line : string) : Result (gmap string string) :=
  if str_contains equals_sign line then
    match unpack2 (str_split1 equals_sign (str_strip line)) with
    | Ok (k, v) => Ok (<[k := str_strip_chars [single_quote; double_quote] v]> env_data)
    | Raise e => Raise e
    end
  else Ok env_data.

Fixpoint read_env_lines (env_data : gmap string string) (lines : list string) : Result (gmap string string) :=
  match lines with
  | [] => Ok env_data
  | line :: rest =>
      match read_env_line env_data line with
      | Ok env_data' => read_env_lines env_data' rest
      | Raise e => Raise e
      end
  end.

(** [f"{key}='{value}'\n"] *)
Definition env_line (key value : string) : string :=
  key +:+ "='" +:+ value +:+ "'" +:+ String newline EmptyString.

(** [{**a, **b}]: the keys of both, [b] winning. *)
Definition dict_merge (a b : gmap string string) : gmap string string := b ∪ a.

(** [d.update(other)] *)
Definition dict_update (d other : gmap string string) : gmap string string := other ∪ d.

(** ** The device index *)

(** [{d['name']: d for d in devices}], item by item. *)
Fixpoint build_index (devices : list pyval) (index : gmap pykey pyval) : Result (gmap pykey pyval) :=
  match devices with
  | [] => Ok index
  | d :: rest =>
      match py_getitem d "name" with
      | Ok name =>
          match py_hash name with
          | Ok k => build_index rest (<[k := d]> index)
          | Raise e => Raise e
          end
      | Raise e => Raise e
      end
  end.

(** ** Methods of ConfigManager *)

Section ConfigManager.
Context `{PyLib}.

Definition _read_json_file (file_path : Path) : Py pyval :=
  st ← get_state;
  match _config_cache (self st) !! file_path with
  | Some data => mret data
  | None =>
      try_except
        (text ← open_r file_path;
         data ← lift_result (json_load text);
         modify (λ st, set_cache (<[file_path := data]> (_config_cache (self st))) st);;
         mret data)
        (λ e, bool_decide (e = JSONDecodeError ∨ e = FileNotFoundError))
        (λ _, mret (if decide (file_path = mobile_devices_path (self st))
                    then PList [] else PDict []))
  end.

Definition _write_json_file (file_path : Path) (data : pyval) : Py bool :=
  try_except
    (open_w file_path;;
     f_write file_path (json_dump data).1;;
     match (json_dump data).2 with
     | Some e => raise e
     | None =>
         modify (λ st, set_cache (<[file_path := data]> (_config_cache (self st))) st);;
         mret true
     end)
    Exception
    (λ _, mret false).

Definition get_env_settings : Py (gmap string string) :=
  st ← get_state;
  let env_vars := default_env_settings (self st) in
  mret (foldl (λ env_vars key, <[key := os_getenv (environ st) key (env_vars !!! key)]> env_vars)
              env_vars (elements (dom env_vars))).

Definition save_env_settings (settings : gmap string string) : Py bool :=
  try_except
    (st ← get_state;
     let env_file_path := env_file_path (self st) in
     env_data ← (if path_exists env_file_path (fs st)
                 then text ← open_r env_file_path;
                      lift_result (read_env_lines ∅ (readlines text))
                 else mret ∅);
     let env_data := dict_update env_data (dict_merge (default_env_settings (self st)) settings) in
     open_w env_file_path;;
     for_each (sorted (elements (dom env_data)))
       (λ key, match env_data !! key with
               | Some value => f_write env_file_path (env_line key value)
               | None => raise KeyError
               end);;
     mret true)
    Exception
    (λ _, mret false).

Definition get_mobile_devices : Py pyval :=
  st ← get_state;
  _read_json_file (mobile_devices_path (self st)).

Definition get_device_by_name (device_name : string) : Py (option pyval) :=
  devices ← get_mobile_devices;
  st ← get_state;
  index ← match _device_index (self st) with
          | Some index => mret index
          | None =>
              items ← lift_result (py_iter devices);
              index ← lift_result (build_index items ∅);
              modify (set_device_index (Some index));;
              mret index
          end;
  mret (index !! KStr device_name).

Definition invalidate_cache (file_path : option Path) : Py unit :=
  match file_path with
  | Some file_path =>
      modify (λ st, set_cache (delete file_path (_config_cache (self st))) st)
  | None =>
      modify (λ st, set_cache ∅ st);;
      modify (set_device_index None)
  end.

Definition _check_config_dir : Py unit :=
  λ st, match fs_mkdir_p (config_dir (self st)) (fs st) with
        | Ok f => (Ok (), set_fs f st)
        | Raise e => (Raise e, st)
        end.

(** Modelled from the spec: [_create_example_env] is called by
    [_initialize_config_files] but is not among the sources.  The spec has it
    create the example environment file, listing the recognized keys with
    empty values, one line per key. *)
Definition _create_example_env : Py unit :=
  st ← get_state;
  let path := example_env_file (self st) in
  open_w path;;
  for_each (sorted (elements (dom (default_env_settings (self st)))))
    (λ key, f_write path
              (key +:+ "=" +:+ String double_quote (String double_quote (String newline EmptyString)))).

(** Modelled from the spec: [_create_default_devices] is not among the
    sources.  The spec has it create an empty device list file. *)
Definition _create_default_devices : Py unit :=
  st ← get_state;
  let path := mobile_devices_path (self st) in
  open_w path;;
  f_write path (json_dump (PList [])).1.

(** Modelled from the spec: [_create_empty_telegram_entities] is not among
    the sources.  The spec has it create an empty entities mapping file. *)
Definition _create_empty_telegram_entities : Py unit :=
  st ← get_state;
  let path := telegram_entities_path (self st) in
  open_w path;;
  f_write path (json_dump (PDict [])).1.

Definition _initialize_config_files : Py unit :=
  st ← get_state;
  (if negb (path_exists (example_env_file (self st)) (fs st))
   then _create_example_env else mret ());;
  st ← get_state;
  (if negb (path_exists (mobile_devices_path (self st)) (fs st))
   then _create_default_devices else mret ());;
  st ← get_state;
  (if negb (path_exists (telegram_entities_path (self st)) (fs st))
   then _create_empty_telegram_entities else mret ()).

(** The attributes that [__init__] assigns. *)
Definition new_manager (config_dir : Path) : ConfigManager := {|
  config_dir := config_dir;
  mobile_devices_path := config_dir // "mobile_devices.json";
  telegram_entities_path := config_dir // "telegram_entities.json";
  env_file_path := path_parent config_dir // ".env";
  example_env_file := path_parent config_dir // ".env.example";
  sessions_dir := path_parent config_dir // "sessions";
  default_env_settings := {[ "TELEGRAM_API_ID" := "" ]};
  _config_cache := ∅;
  _session_manager := None;
  _device_index := None
|}.

(** [ConfigManager(config_dir)] in a world with the given files and process
    environment.  When it raises, the caller receives no object. *)
Definition __init__ (config_dir : Path) (fs0 : FileSystem) (environ0 : gmap string string)
    : Result unit * State :=
  (_check_config_dir;;
   st ← get_state;
   env ← lift_result (load_dotenv (env_file_path (self st)) (fs st) (environ st));
   modify (set_environ env);;
   _initialize_config_files)
    {| self := new_manager config_dir; fs := fs0; environ := environ0 |}.

End ConfigManager.

(** ** A reference instance of the libraries *)

(** A JSON writer and reader for the values of [pyval], and a loader of
    [KEY='VALUE'] files, to run the methods on concrete inputs.  The theorems
    below hold for every instance of [PyLib]. *)
Module RefLib.

Definition backslash : ascii := "092"%char.

Definition hex_digit (n : N) : ascii :=
  ascii_of_N (if (n <? 10)%N then 48 + n else 87 + n).

(** One character inside a JSON string, with [ensure_ascii]. *)
Definition json_escape (c : ascii) : string :=
  let n := N_of_ascii c in
  let esc (x : ascii) := String backslash (String x EmptyString) in
  if decide (c = double_quote) then esc double_quote
  else if decide (c = backslash) then esc backslash
  else if decide (n = 10%N) then esc "n"%char
  else if decide (n = 13%N) then esc "r"%char
  else if decide (n = 9%N) then esc "t"%char
  else if decide (n = 8%N) then esc "b"%char
  else if decide (n = 12%N) then esc "f"%char
  else if ((n <? 32) || (126 <? n))%N then
    String backslash
      (String "u" (String "0" (String "0"
        (String (hex_digit (n / 16)) (String (hex_digit (n mod 16)) EmptyString)))))
  else String c EmptyString.

Fixpoint json_escape_all (s : string) : string :=
  match s with
  | EmptyString => EmptyString
  | String c s' => json_escape c +:+ json_escape_all s'
  end.

Definition json_quote (s : string) : string :=
  String double_quote (json_escape_all s) +:+ String double_quote EmptyString.

Fixpoint str_join (sep : string) (parts : list string) : string :=
  match parts with
  | [] => EmptyString
  | [p] => p
  | p :: ps => p +:+ sep +:+ str_join sep ps
  end.

Fixpoint spaces (n : nat) : string :=
  match n with
  | O => EmptyString
  | S n' => String " " (spaces n')
  end.

(** [json.dumps(v, indent=2)] at a nesting level. *)
Fixpoint json_encode (level : nat) (v : pyval) : string :=
  let nl k := String newline (spaces (2 * k)) in
  match v with
  | PNone => "null"
  | PBool true => "true"
  | PBool false => "false"
  | PInt z => pretty z
  | PStr s => json_quote s
  | PList [] => "[]"
  | PList l =>
      "[" +:+ nl (S level)
      +:+ str_join ("," +:+ nl (S level)) (map (json_encode (S level)) l)
      +:+ nl level +:+ "]"
  | PDict [] => "{}"
  | PDict d =>
      "{" +:+ nl (S level)
      +:+ str_join ("," +:+ nl (S level))
            (map (λ kv, let '(k, x) := kv in json_quote k +:+ ": " +:+ json_encode (S level) x) d)
      +:+ nl level +:+ "}"
  end.

Definition is_json_ws (c : ascii) : bool :=
  let n := N_of_ascii c in
  ((n =? 32) || (n =? 9) || (n =? 10) || (n =? 13))%N.

Definition is_digit (c : ascii) : bool :=
  let n := N_of_ascii c in ((48 <=? n) && (n <=? 57))%N.

Definition hex_value (c : ascii) : option N :=
  let n := N_of_ascii c in
  if ((48 <=? n) && (n <=? 57))%N then Some (n - 48)%N
  else if ((97 <=? n) && (n <=? 102))%N then Some (n - 87)%N
  else if ((65 <=? n) && (n <=? 70))%N then Some (n - 55)%N
  else None.

Fixpoint str_prefix (p s : string) : option string :=
  match p, s with
  | EmptyString, _ => Some s
  | String a p', String b s' => if decide (a = b) then str_prefix p' s' else None
  | _, _ => None
  end.

(** The rest of a string literal after its opening quote, and what follows
    the closing quote. *)
Fixpoint json_string (s : string) : option (string * string) :=
  match s with
  | EmptyString => None
  | String c s' =>
      if decide (c = double_quote) then Some (EmptyString, s')
      else if decide (c = backslash) then
        match s' with
        | String e s'' =>
            let plain (x : ascii) :=
              '(body, rest) ← json_string s''; Some (String x body, rest) in
            if decide (e = double_quote) then plain double_quote
            else if decide (e = backslash) then plain backslash
            else if decide (e = "/"%char) then plain "/"%char
            else if decide (e = "b"%char) then plain "008"%char
            else if decide (e = "f"%char) then plain "012"%char
            else if decide (e = "n"%char) then plain "010"%char
            else if decide (e = "r"%char) then plain "013"%char
            else if decide (e = "t"%char) then plain "009"%char
            else if decide (e = "u"%char) then
              match s'' with
              | String h1 (String h2 (String h3 (String h4 s4))) =>
                  match hex_value h1, hex_value h2, hex_value h3, hex_value h4 with
                  | Some 0%N, Some 0%N, Some a, Some b =>
                      '(body, rest) ← json_string s4;
                      Some (String (ascii_of_N (16 * a + b)) body, rest)
                  | _, _, _, _ => None
                  end
              | _ => None
              end
            else None
        | EmptyString => None
        end
      else if (N_of_ascii c <? 32)%N then None
      else '(body, rest) ← json_string s'; Some (String c body, rest)
  end.

Fixpoint json_digits (acc : Z) (s : string) : Z * string :=
  match s with
  | String c s' =>
      if is_digit c then json_digits (10 * acc + Z.of_N (N_of_ascii c - 48)) s'
      else (acc, s)
  | EmptyString => (acc, s)
  end.

(** An integer literal; a fraction or an exponent would make a float, which
    [pyval] does not hold. *)
Definition json_int (s : string) : option (Z * string) :=
  let '(neg, s1) := match s with
                    | String "-" s' => (true, s')
                    | _ => (false, s)
                    end in
  match s1 with
  | String c s2 =>
      if is_digit c then
        let '(n, rest) := if decide (c = "0"%char) then (0%Z, s2) else json_digits 0 s1 in
        match rest with
        | String "." _ | String "e" _ | String "E" _ => None
        | _ => Some (if neg then (- n)%Z else n, rest)
        end
      else None
  | EmptyString => None
  end.

Fixpoint skip_ws (s : string) : string :=
  match s with
  | String c s' => if is_json_ws c then skip_ws s' else s
  | EmptyString => s
  end.

Fixpoint assoc_set (k : string) (v : pyval) (d : list (string * pyval)) : list (string * pyval) :=
  match d with
  | [] => [(k, v)]
  | (k', v') :: d' => if decide (k' = k) then (k, v) :: d' else (k', v') :: assoc_set k v d'
  end.

(** Recursive descent; every call takes one unit of fuel. *)
Fixpoint json_value (fuel : nat) (s : string) : option (pyval * string) :=
  match fuel with
  | O => None
  | S fuel =>
      match s with
      | String "[" s' =>
          match skip_ws s' with
          | String "]" rest => Some (PList [], rest)
          | s'' => json_items fuel [] s''
          end
      | String "{" s' =>
          match skip_ws s' with
          | String "}" rest => Some (PDict [], rest)
          | s'' => json_members fuel [] s''
          end
      | String c s' =>
          if decide (c = double_quote) then
            '(body, rest) ← json_string s'; Some (PStr body, rest)
          else match str_prefix "null" s, str_prefix "true" s, str_prefix "false" s with
               | Some rest, _, _ => Some (PNone, rest)
               | _, Some rest, _ => Some (PBool true, rest)
               | _, _, Some rest => Some (PBool false, rest)
               | _, _, _ => '(n, rest) ← json_int s; Some (PInt n, rest)
               end
      | EmptyString => None
      end
  end
with json_items (fuel : nat) (acc : list pyval) (s : string) : option (pyval * string) :=
  match fuel with
  | O => None
  | S fuel =>
      '(x, rest) ← json_value fuel s;
      match skip_ws rest with
      | String "," rest' => json_items fuel (acc ++ [x]) (skip_ws rest')
      | String "]" rest' => Some (PList (acc ++ [x]), rest')
      | _ => None
      end
  end
with json_members (fuel : nat) (acc : list (string * pyval)) (s : string) : option (pyval * string) :=
  match fuel with
  | O => None
  | S fuel =>
      match s with
      | String c s' =>
          if decide (c = double_quote) then
            '(k, rest) ← json_string s';
            match skip_ws rest with
            | String ":" rest' =>
                '(x, rest'') ← json_value fuel (skip_ws rest');
                match skip_ws rest'' with
                | String "," rest3 => json_members fuel (assoc_set k x acc) (skip_ws rest3)
                | String "}" rest3 => Some (PDict (assoc_set k x acc), rest3)
                | _ => None
                end
            | _ => None
            end
          else None
      | EmptyString => None
      end
  end.

(** [json.loads]: one value, with nothing but whitespace around it. *)
Definition json_decode (text : string) : Result pyval :=
  match json_value (2 * String.length text + 2) (skip_ws text) with
  | Some (v, rest) =>
      match skip_ws rest with
      | EmptyString => Ok v
      | _ => Raise JSONDecodeError
      end
  | None => Raise JSONDecodeError
  end.

(** [load_dotenv(path)] without override: variables already set are kept. *)
Definition dotenv (path : Path) (fs : FileSystem) (environ : gmap string string)
    : Result (gmap string string) :=
  match fs_files fs !! path with
  | Some text =>
      match read_env_lines ∅ (readlines text) with
      | Ok vars => Ok (environ ∪ vars)
      | Raise e => Raise e
      end
  | None => Ok environ
  end.

Global Instance ref_lib : PyLib := {|
  json_load := json_decode;
  json_dump := λ v, (json_encode 0 v, None);
  load_dotenv := dotenv
|}.

End RefLib.

(** ** Vocabulary of the statements *)

(** The two ways a document's file can be broken. *)
Definition file_missing (p : Path) (f : FileSystem) : Prop :=
  fs_open_r p f = Raise FileNotFoundError.

Definition file_malformed `{PyLib} (p : Path) (f : FileSystem) : Prop :=
  ∃ text, fs_open_r p f = Ok text ∧ json_load text = Raise JSONDecodeError.

(** The paths as [__init__] derives them from the configuration directory. *)
Definition has_layout (dir : Path) (m : ConfigManager) : Prop :=
  mobile_devices_path m = dir // "mobile_devices.json" ∧
  telegram_entities_path m = dir // "telegram_entities.json".


Definition carries_hashable_name (d : pyval) : Prop :=
  ∃ fields name k,
    d = PDict fields ∧ assoc_lookup "name" fields = Some name ∧ py_hash name = Ok k.

Definition lacks_name (d : pyval) : Prop :=
  ∃ fields, d = PDict fields ∧ assoc_lookup "name" fields = None.



(** The string starts with a whitespace character. *)
Definition starts_with_space (s : string) : bool :=
  match s with
  | String c _ => is_py_space c
  | EmptyString => false
  end.

(** What the reading loop of [save_env_settings] collects from the file. *)
Definition env_file_vars (p : Path) (f : FileSystem) : Result (gmap string string) :=
  if path_exists p f then
    match fs_open_r p f with
    | Ok text => read_env_lines ∅ (readlines text)
    | Raise e => Raise e
    end
  else Ok ∅.

(** The string has no line break in it.  A carriage return counts: text
    written with one is read again with a line break in its place. *)
Definition carriage_return : ascii := "013"%char.

Definition no_line_break (s : string) : Prop :=
  str_contains newline s = false ∧ str_contains carriage_return s = false.

Definition no_line_breaks (d : gmap string string) : Prop :=
  map_Forall (λ key value, no_line_break key ∧ no_line_break value) d.

(** [line] is a line of [text], taken without its newline: it has no
    newline in it, the text or a newline comes right before it, and a
    newline or the end of the text right after it. *)
Definition line_of (text line : string) : Prop :=
  str_contains newline line = false ∧
  ∃ before after,
    text = before +:+ line +:+ after ∧
    (before = "" ∨ ∃ b, before = b +:+ String newline "") ∧
    (after = "" ∨ ∃ a, after = String newline a).




(** The text that [save_env_settings] writes for a dict. *)
Definition env_text (env_data : gmap string string) : string :=
  str_concat (map (λ key, env_line key (env_data !!! key)) (sorted (elements (dom env_data)))).

(** The state differs from an earlier one at most in the file at [p]. *)
Definition same_but (p : Path) (st st' : State) : Prop :=
  self st' = self st ∧
  environ st' = environ st ∧
  fs_dirs (fs st') = fs_dirs (fs st) ∧
  fs_denied (fs st') = fs_denied (fs st) ∧
  ∀ q, q ≠ p → fs_files (fs st') !! q = fs_files (fs st) !! q.

(** The state differs from an earlier one at most in files, among those that
    satisfy [P], that the earlier one did not have. *)
Definition created_only (P : Path → Prop) (st st' : State) : Prop :=
  self st' = self st ∧
  environ st' = environ st ∧
  fs_dirs (fs st') = fs_dirs (fs st) ∧
  fs_denied (fs st') = fs_denied (fs st) ∧
  ∀ q, fs_files (fs st') !! q = fs_files (fs st) !! q ∨
       (P q ∧ path_exists q (fs st) = false).

(** The three files that [_initialize_config_files] looks after. *)
Definition default_file (m : ConfigManager) (p : Path) : Prop :=
  p = example_env_file m ∨ p = mobile_devices_path m ∨ p = telegram_entities_path m.

(** What a method returns in a state, and the state it leaves. *)
Definition result {A} (m : Py A) (st : State) : Result A := (m st).1.
Definition after {A} (m : Py A) (st : State) : State := (m st).2.

(** The items of a returned dict. *)
Definition items (r : Result (gmap string string)) : Result (list (string * string)) :=
  match r with
  | Ok m => Ok (map_to_list m)
  | Raise e => Raise e
  end.

(** ** Sample worlds *)

Definition devices_json : Path := ["config"; "mobile_devices.json"].
Definition entities_json : Path := ["config"; "telegram_entities.json"].
Definition dotenv_file : Path := [".env"].

(** A project directory with [config/] in it, the device document holding
    the given value as [json.dump] prints it, and an optional [.env]. *)
Definition sample_fs (devices : pyval) (dotenv_text : option string) : FileSystem := {|
  fs_files :=
    let docs : gmap Path string :=
      {[ ["config"; "mobile_devices.json"] := RefLib.json_encode 0 devices;
         ["config"; "telegram_entities.json"] := RefLib.json_encode 0 (PDict []) ]} in
    match dotenv_text with
    | Some text => <[ [".env"] := text ]> docs
    | None => docs
    end;
  fs_dirs := {[ []; ["config"] ]};
  fs_denied := ∅
|}.

Definition sample_state (devices : pyval) (dotenv_text : option string) : State := {|
  self := new_manager ["config"];
  fs := sample_fs devices dotenv_text;
  environ := ∅
|}.

Definition device (name : pyval) (id : Z) : pyval :=
  PDict [("name", name); ("id", PInt id)].

Definition two_devices : list pyval := [device (PStr "A") 1; device (PStr "B") 2].


(** A record without [name] after a well-formed one. *)
Definition nameless_devices : list pyval := [device (PStr "A") 1; PDict [("id", PInt 2)]].

(** The sample state after the device document was read, the file then
    being made unwritable. *)
Definition locked_state (devices : pyval) : State := {|
  self := self (set_cache {[ ["config"; "mobile_devices.json"] := devices ]}
                  (sample_state devices None));
  fs := {| fs_files := fs_files (sample_fs devices None);
           fs_dirs := fs_dirs (sample_fs devices None);
           fs_denied := {[ ["config"; "mobile_devices.json"] ]} |};
  environ := ∅
|}.

(** A line of a [.env] file. *)
Definition dotenv_line (text : string) : string := text +:+ String newline EmptyString.

(** A project whose [.env] holds one line, and nothing else yet. *)
Definition project_fs (line : string) : FileSystem :=
  {| fs_files := {[ [".env"] := dotenv_line line ]}; fs_dirs := {[ [] ]}; fs_denied := ∅ |}.

(** A fresh project directory: nothing but the directory itself. *)
Definition empty_fs : FileSystem :=
  {| fs_files := ∅; fs_dirs := {[ [] ]}; fs_denied := ∅ |}.

(** The sample state with the entities document overwritten by text that is
    not JSON. *)
Definition broken_entities_state : State :=
  set_fs (with_files (<[ ["config"; "telegram_entities.json"] := "{ not json" ]>)
            (sample_fs (PList []) None))
    (sample_state (PList []) None).

(** ** Vocabulary of the further properties *)

Definition is_quote (c : ascii) : bool :=
  bool_decide (c ∈ [single_quote; double_quote]).

Definition starts_with_quote (s : string) : bool :=
  match s with
  | String c _ => is_quote c
  | EmptyString => false
  end.

(** A key that a line of the [.env] file gives back: no equals sign, no
    line break, no whitespace in front. *)
Definition env_key_ok (key : string) : Prop :=
  str_contains equals_sign key = false ∧
  no_line_break key ∧
  starts_with_space key = false.

(** A value that a line of the [.env] file gives back: no line break, no
    quote character at either end. *)
Definition env_value_ok (value : string) : Prop :=
  no_line_break value ∧
  starts_with_quote value = false ∧
  starts_with_quote (String.rev value) = false.

(** A document that is not a list and that a loop does not run through
    without touching an item: a scalar, a dict with a key, a string with a
    character. *)
Definition not_a_device_list (v : pyval) : bool :=
  match v with
  | PList _ | PDict [] | PStr EmptyString => false
  | _ => true
  end.

(** The sample state with an index built from an earlier device document,
    in which B had another id. *)
Definition indexed_state : State :=
  set_device_index (Some {[ KStr "B" := device (PStr "B") 9 ]})
    (sample_state (PList two_devices) None).

(** A state on the fresh project directory. *)
Definition fresh_state : State :=
  {| self := new_manager ["config"]; fs := empty_fs; environ := ∅ |}.

(** The locked sample state with nothing cached. *)
Definition locked_uncached_state : State := set_cache ∅ (locked_state (PList [])).

(** A project in which [config] is a regular file, not a directory. *)
Definition config_is_file_state : State :=
  {| self := new_manager ["config"];
     fs := {| fs_files := {[ ["config"] := "" ]}; fs_dirs := {[ [] ]}; fs_denied := ∅ |};
     environ := ∅ |}.

(** * Properties *)

(** Unfolds the monad's plumbing so that a method call reduces to a case
    analysis on what the state holds. *)
Ltac py_unfold :=
  unfold mbind, Py_bind, mret, Py_ret, get_state, modify, raise, lift_result,
    try_except, open_r, open_w, f_write, Exception in *.

Ltac py_simpl := repeat (py_unfold; simpl in *).

(** ** The file system *)

Section FileSystem.

Lemma proper_prefixes_length p : ∀ q, q ∈ proper_prefixes p → length q < length p.
Proof.
  induction p as [|x p IH]; intros q Hq; simpl in *.
  - by apply elem_of_nil in Hq.
  - apply elem_of_cons in Hq as [->|Hq]; [simpl; lia|].
    apply list_elem_of_In, in_map_iff in Hq as (q' & <- & Hq'). simpl.
    apply list_elem_of_In, IH in Hq'. lia.
Qed.

Lemma existsb_agree {A} (f g : A → bool) l :
  (∀ x, x ∈ l → f x = g x) → existsb f l = existsb g l.
Proof.
  induction l as [|x l IH]; intros Hfg; simpl; [done|].
  rewrite Hfg by left. rewrite IH; [done|]. intros y Hy. apply Hfg. by right.
Qed.

(** Writing the file itself does not change what lies above it. *)
Lemma below_file_with_files p g f :
  (∀ m q, q ≠ p → g m !! q = m !! q) →
  below_file p (with_files g f) = below_file p f.
Proof.
  intros Hg. unfold below_file. apply existsb_agree. intros q Hq. simpl.
  rewrite Hg; [done|].
  intros ->. apply proper_prefixes_length in Hq. lia.
Qed.

Lemma below_file_insert p text f :
  below_file p (with_files (<[p := text]>) f) = below_file p f.
Proof. apply below_file_with_files. intros m q Hq. by apply lookup_insert_ne. Qed.


Lemma fs_open_w_Ok p f f' :
  fs_open_w p f = Ok f' →
  f' = with_files (<[p := ""]>) f ∧
  (p ∉ fs_denied f) ∧ below_file p f = false ∧ (p ∉ fs_dirs f).
Proof.
  unfold fs_open_w. destruct (decide (p ∈ fs_denied f)); [done|].
  destruct (below_file p f); [done|].
  destruct (decide (p ∈ fs_dirs f)); [done|].
  destruct (decide (path_parent p ∈ fs_dirs f)); [|done].
  by intros [= <-].
Qed.

Lemma fs_open_r_file p f text :
  p ∉ fs_denied f → below_file p f = false → p ∉ fs_dirs f →
  fs_files f !! p = Some text →
  fs_open_r p f = Ok text.
Proof.
  intros Hden Hbelow Hdir Hfile. unfold fs_open_r.
  by rewrite decide_False, Hbelow, decide_False, Hfile.
Qed.

End FileSystem.

(** ** The document cache *)

Section Cache.
Context `{PyLib}.

Lemma read_cached file_path data st :
  _config_cache (self st) !! file_path = Some data →
  _read_json_file file_path st = (Ok data, st).
Proof. intros Hc. unfold _read_json_file. py_simpl. by rewrite Hc. Qed.

Lemma read_parsed file_path text data st :
  _config_cache (self st) !! file_path = None →
  fs_open_r file_path (fs st) = Ok text →
  json_load text = Ok data →
  _read_json_file file_path st
  = (Ok data, set_cache (<[file_path := data]> (_config_cache (self st))) st).
Proof.
  intros Hc Ho Hj. unfold _read_json_file. py_simpl.
  by rewrite Hc, Ho, Hj.
Qed.

Lemma read_broken file_path st :
  _config_cache (self st) !! file_path = None →
  file_missing file_path (fs st) ∨ file_malformed file_path (fs st) →
  _read_json_file file_path st
  = (Ok (if decide (file_path = mobile_devices_path (self st)) then PList [] else PDict []), st).
Proof.
  intros Hc Hb. unfold _read_json_file. py_simpl. rewrite Hc.
  destruct Hb as [Hm | (text & Ho & Hj)].
  - unfold file_missing in Hm. by rewrite Hm.
  - by rewrite Ho, Hj.
Qed.

(** What a write does, by cases on the file system and the encoder. *)
Lemma write_cases file_path data st :
  match fs_open_w file_path (fs st) with
  | Raise _ => _write_json_file file_path data st = (Ok false, st)
  | Ok f =>
      let f' := fs_append file_path (json_dump data).1 f in
      match (json_dump data).2 with
      | Some _ => _write_json_file file_path data st = (Ok false, set_fs f' st)
      | None =>
          _write_json_file file_path data st
          = (Ok true, set_cache (<[file_path := data]> (_config_cache (self st))) (set_fs f' st))
      end
  end.
Proof.
  unfold _write_json_file. py_simpl.
  destruct (fs_open_w file_path (fs st)) as [f|e]; simpl; [|done].
  by destruct (json_dump data).2.
Qed.

(** A write returns a boolean: no exception leaves [_write_json_file]. *)
Lemma write_returns file_path data st :
  ∃ ok st', _write_json_file file_path data st = (Ok ok, st').
Proof.
  pose proof (write_cases file_path data st) as Hw.
  destruct (fs_open_w file_path (fs st)); simpl in Hw; [|eauto].
  destruct (json_dump data).2; eauto.
Qed.

(** C2.  A document written with success is what the next read of that path
    returns, in every later state in which the path's cache entry is still
    the one the write left (no invalidation in between), whatever happened to
    the file itself meanwhile. *)
Theorem write_read_roundtrip file_path data st st' :
  _write_json_file file_path data st = (Ok true, st') →
  _read_json_file file_path st' = (Ok data, st') ∧
  ∀ st'', _config_cache (self st'') !! file_path = _config_cache (self st') !! file_path →
          _read_json_file file_path st'' = (Ok data, st'').
Proof.
  intros Hw.
  assert (_config_cache (self st') !! file_path = Some data) as Hc.
  { pose proof (write_cases file_path data st) as Hcases. rewrite Hw in Hcases.
    destruct (fs_open_w file_path (fs st)); simpl in Hcases; [|congruence].
    destruct (json_dump data).2; [congruence|].
    injection Hcases as ->. simpl. apply lookup_insert_eq. }
  split.
  - by apply read_cached.
  - intros st'' Heq. apply read_cached. by rewrite Heq.
Qed.

(** C9.  A write that returns failure leaves the object, hence the cache, as
    it was: an entry the path had is still served by the next read, and no
    entry appears where none was. *)
Theorem failed_write_keeps_cache file_path data st st' :
  _write_json_file file_path data st = (Ok false, st') →
  self st' = self st ∧
  _config_cache (self st') = _config_cache (self st) ∧
  (∀ old, _config_cache (self st) !! file_path = Some old →
          _read_json_file file_path st' = (Ok old, st')) ∧
  (_config_cache (self st) !! file_path = None →
   _config_cache (self st') !! file_path = None).
Proof.
  intros Hw.
  assert (self st' = self st) as Hs.
  { pose proof (write_cases file_path data st) as Hcases. rewrite Hw in Hcases.
    destruct (fs_open_w file_path (fs st)); simpl in Hcases; [|congruence].
    destruct (json_dump data).2; [|congruence].
    by injection Hcases as ->. }
  rewrite Hs. repeat split; [|done].
  intros old Hold. apply read_cached. by rewrite Hs.
Qed.

(** C4.  With no cache entry and a file that is missing or malformed, a read
    returns an empty list for the device document and an empty dict for any
    other path, the entities document among them; the state, hence the
    cache, is left as it was, so the next read goes to the file again and
    returns what it then parses. *)
Theorem read_fallback_not_cached file_path st :
  _config_cache (self st) !! file_path = None →
  file_missing file_path (fs st) ∨ file_malformed file_path (fs st) →
  ∃ fallback,
    _read_json_file file_path st = (Ok fallback, st) ∧
    (file_path = mobile_devices_path (self st) → fallback = PList []) ∧
    (file_path ≠ mobile_devices_path (self st) → fallback = PDict []) ∧
    (∀ dir, has_layout dir (self st) →
            file_path = telegram_entities_path (self st) → fallback = PDict []) ∧
    (∀ f' text data,
       fs_open_r file_path f' = Ok text → json_load text = Ok data →
       _read_json_file file_path (set_fs f' st)
       = (Ok data, set_cache (<[file_path := data]> (_config_cache (self st))) (set_fs f' st))).
Proof.
  intros Hc Hb. eexists. split; [by apply read_broken|].
  repeat split.
  - intros ->. by rewrite decide_True.
  - intros Hne. by rewrite decide_False.
  - intros dir [Hm He] ->. rewrite decide_False; [done|].
    rewrite Hm, He. unfold path_join. intros Heq. by simplify_list_eq.
  - intros f' text data Ho Hj.
    by apply (read_parsed file_path text data (set_fs f' st)).
Qed.

End Cache.

(** ** Invalidation *)

Section Invalidate.
Context `{PyLib}.

(** A read touches nothing but the cache. *)
Lemma read_frame file_path st r st' :
  _read_json_file file_path st = (r, st') →
  ∃ c, st' = set_cache c st.
Proof.
  unfold _read_json_file. py_simpl.
  destruct (_config_cache (self st) !! file_path) eqn:Hc.
  - intros [= <- <-]. exists (_config_cache (self st)). by destruct st as [[] ? ?].
  - assert (st = set_cache (_config_cache (self st)) st) as Hid by (by destruct st as [[] ? ?]).
    destruct (fs_open_r file_path (fs st)) as [text|e]; simpl.
    + destruct (json_load text) as [data|e]; simpl.
      * intros [= <- <-]. eauto.
      * destruct (bool_decide _); intros [= <- <-]; eauto.
    + destruct (bool_decide _); intros [= <- <-]; eauto.
Qed.

Lemma devices_frame st r st' :
  get_mobile_devices st = (r, st') → ∃ c, st' = set_cache c st.
Proof. unfold get_mobile_devices. py_simpl. apply read_frame. Qed.

(** The lookup by name when the index attribute is absent: the index is
    built from the list just read. *)
Lemma device_lookup_builds name st st1 devices items :
  _device_index (self st) = None →
  get_mobile_devices st = (Ok devices, st1) →
  py_iter devices = Ok items →
  get_device_by_name name st
  = match build_index items ∅ with
    | Ok index => (Ok (index !! KStr name), set_device_index (Some index) st1)
    | Raise e => (Raise e, st1)
    end.
Proof.
  intros Hix Hd Hit.
  destruct (devices_frame _ _ _ Hd) as [c ->].
  unfold get_device_by_name. py_simpl. rewrite Hd. simpl.
  rewrite Hix, Hit. simpl. by destruct (build_index items ∅).
Qed.

(** The lookup by name when the index is there: the list read is not used. *)
Lemma device_lookup_reuses name st st1 devices index :
  _device_index (self st) = Some index →
  get_mobile_devices st = (Ok devices, st1) →
  get_device_by_name name st = (Ok (index !! KStr name), st1).
Proof.
  intros Hix Hd.
  destruct (devices_frame _ _ _ Hd) as [c ->].
  unfold get_device_by_name. py_simpl. rewrite Hd. simpl. by rewrite Hix.
Qed.

(** C5.  [invalidate_cache()] empties the cache and removes the device
    index, whatever they held: the next read of any path returns what the
    file parses to, and the next lookup by name builds its index from the
    list it reads.  [invalidate_cache(path)] removes the entry of that path
    and nothing else: the other entries and the device index stay. *)
Theorem invalidate_cache_effect st :
  (∃ st0,
     invalidate_cache None st = (Ok (), st0) ∧
     _config_cache (self st0) = ∅ ∧
     _device_index (self st0) = None ∧
     fs st0 = fs st ∧
     (∀ c ix, invalidate_cache None (set_device_index ix (set_cache c st)) = (Ok (), st0)) ∧
     (∀ file_path text data,
        fs_open_r file_path (fs st) = Ok text → json_load text = Ok data →
        _read_json_file file_path st0 = (Ok data, set_cache {[file_path := data]} st0)) ∧
     (∀ file_path,
        file_missing file_path (fs st) ∨ file_malformed file_path (fs st) →
        ∃ fallback, _read_json_file file_path st0 = (Ok fallback, st0) ∧
                    (fallback = PList [] ∨ fallback = PDict [])) ∧
     (∀ name devices st1 items index,
        get_mobile_devices st0 = (Ok devices, st1) →
        py_iter devices = Ok items →
        build_index items ∅ = Ok index →
        get_device_by_name name st0
        = (Ok (index !! KStr name), set_device_index (Some index) st1))) ∧
  (∀ file_path, ∃ st1,
     invalidate_cache (Some file_path) st = (Ok (), st1) ∧
     _config_cache (self st1) = delete file_path (_config_cache (self st)) ∧
     _config_cache (self st1) !! file_path = None ∧
     (∀ other, other ≠ file_path →
               _config_cache (self st1) !! other = _config_cache (self st) !! other) ∧
     _device_index (self st1) = _device_index (self st) ∧
     fs st1 = fs st).
Proof.
  split.
  - eexists. split; [reflexivity|]. simpl. repeat split.
    + intros file_path text data Ho Hj.
      rewrite (read_parsed file_path text data); [| by simpl | by simpl | done].
      simpl. by rewrite insert_empty.
    + intros file_path Hb. eexists. split; [by apply read_broken|].
      destruct (decide _); auto.
    + intros name devices st1 items index Hd Hit Hb.
      rewrite (device_lookup_builds name _ st1 devices items); [| done | done | done].
      by rewrite Hb.
  - intros file_path. eexists. split; [reflexivity|]. simpl. repeat split.
    + apply lookup_delete_eq.
    + intros other Hne. by apply lookup_delete_ne.
Qed.

End Invalidate.

(** ** The device index *)

Section Devices.
Context `{PyLib}.




Lemma build_index_raises devices : ∀ acc e,
  build_index devices acc = Raise e → e = KeyError ∨ e = TypeError.
Proof.
  induction devices as [|d rest IH]; intros acc e; simpl; [done|].
  destruct (py_getitem d "name") as [n|e'] eqn:Hg.
  - destruct (py_hash n) as [k|e''] eqn:Hh; [by apply IH|].
    intros [= <-]. destruct n; simplify_eq/=; auto.
  - intros [= <-]. unfold py_getitem in Hg.
    destruct d; simplify_eq/=; auto.
    destruct (assoc_lookup "name" d); simplify_eq/=; auto.
Qed.

Lemma build_index_missing_name devices : ∀ acc,
  Exists lacks_name devices →
  ∃ e, build_index devices acc = Raise e ∧ (e = KeyError ∨ e = TypeError) ∧
       (Forall (λ d, lacks_name d ∨ carries_hashable_name d) devices → e = KeyError).
Proof.
  induction devices as [|d rest IH]; intros acc Hex; [by apply Exists_nil in Hex|].
  apply Exists_cons in Hex as [(fields & -> & Hl) | Hrest].
  - exists KeyError. simpl. rewrite Hl. auto.
  - destruct (build_index (d :: rest) acc) as [index|e] eqn:Hb.
    + exfalso. simpl in Hb.
      destruct (py_getitem d "name") as [n|]; [|done].
      destruct (py_hash n) as [k|]; [|done].
      destruct (IH (<[k := d]> acc) Hrest) as (e & He & _). congruence.
    + exists e. split; [done|]. split; [by eapply build_index_raises|].
      intros Hall. apply Forall_cons in Hall as [Hd Hall]. simpl in Hb.
      destruct Hd as [(fields & -> & Hl) | (fields & n & k & -> & Hl & Hh)].
      * simpl in Hb. rewrite Hl in Hb. congruence.
      * simpl in Hb. rewrite Hl, Hh in Hb.
        destruct (IH (<[k := PDict fields]> acc) Hrest) as (e' & He' & _ & Hkey).
        rewrite Hb in He'. injection He' as ->. by apply Hkey.
Qed.


(** C10.  With the index not yet built and a device list in which some
    record has no [name] key, the lookup raises: a [KeyError] from the failed
    key lookup when the other records are well formed, and never anything but
    a [KeyError] or a [TypeError]. *)
Theorem get_device_by_name_missing_name name st st1 devices :
  _device_index (self st) = None →
  get_mobile_devices st = (Ok (PList devices), st1) →
  Exists lacks_name devices →
  ∃ e,
    get_device_by_name name st = (Raise e, st1) ∧
    (e = KeyError ∨ e = TypeError) ∧
    (Forall (λ d, lacks_name d ∨ carries_hashable_name d) devices → e = KeyError).
Proof.
  intros Hix Hd Hex.
  destruct (build_index_missing_name devices ∅ Hex) as (e & Hb & He).
  exists e. split; [|done].
  rewrite (device_lookup_builds name st st1 (PList devices) devices Hix Hd eq_refl).
  by rewrite Hb.
Qed.

End Devices.

(** ** Environment settings *)

Section Env.

Lemma str_app_cons a s t : String a s +:+ t = String a (s +:+ t).
Proof. done. Qed.

Lemma str_app_nil_r s : s +:+ "" = s.
Proof. induction s as [|a s IH]; [done|]. by rewrite str_app_cons, IH. Qed.

Lemma str_app_assoc s t u : (s +:+ t) +:+ u = s +:+ (t +:+ u).
Proof. induction s as [|a s IH]; [done|]. by rewrite !str_app_cons, IH. Qed.

Lemma os_getenv_idemp environ key d :
  os_getenv environ key (os_getenv environ key d) = os_getenv environ key d.
Proof. unfold os_getenv. by destruct (environ !! key). Qed.

(** The loop of [get_env_settings] over a list of keys. *)
Lemma getenv_loop_lookup environ keys : ∀ (env_vars : gmap string string) key,
  foldl (λ acc k, <[k := os_getenv environ k (acc !!! k)]> acc) env_vars keys !! key
  = if decide (key ∈ keys) then Some (os_getenv environ key (env_vars !!! key))
    else env_vars !! key.
Proof.
  induction keys as [|k rest IH]; intros env_vars key.
  - destruct (decide (key ∈ [])) as [Hin|]; [by apply elem_of_nil in Hin | done].
  - cbn [foldl]. rewrite IH. destruct (decide (key = k)) as [->|Hne].
    + rewrite lookup_total_insert_eq, os_getenv_idemp, lookup_insert_eq.
      destruct (decide (k ∈ k :: rest)) as [|Hn]; [|set_solver].
      by destruct (decide (k ∈ rest)).
    + rewrite lookup_total_insert_ne, lookup_insert_ne by done.
      destruct (decide (key ∈ rest)) as [Hr|Hr], (decide (key ∈ k :: rest)) as [Hk|Hk].
      * done.
      * exfalso. apply Hk. by right.
      * exfalso. apply elem_of_cons in Hk as [Hk|Hk]; done.
      * done.
Qed.

(** C7.  [get_env_settings] returns a dict over exactly the default keys,
    each with the process environment's value when the variable is set and
    the default otherwise; it leaves the state alone and its result does not
    depend on the files.  The defaults that [__init__] assigns are empty
    strings. *)
Theorem get_env_settings_spec st :
  ∃ env_vars,
    get_env_settings st = (Ok env_vars, st) ∧
    dom env_vars = dom (default_env_settings (self st)) ∧
    (∀ key d,
       default_env_settings (self st) !! key = Some d →
       env_vars !! key = Some (match environ st !! key with
                               | Some v => v
                               | None => d
                               end)) ∧
    (∀ f, get_env_settings (set_fs f st) = (Ok env_vars, set_fs f st)) ∧
    (∀ dir key d, default_env_settings (new_manager dir) !! key = Some d → d = "").
Proof.
  eexists. split; [reflexivity|].
  assert (∀ key,
    foldl (λ acc k, <[k := os_getenv (environ st) k (acc !!! k)]> acc)
      (default_env_settings (self st))
      (elements (dom (default_env_settings (self st)))) !! key
    = os_getenv (environ st) key <$> default_env_settings (self st) !! key) as Hlook.
  { intros key. rewrite getenv_loop_lookup.
    destruct (default_env_settings (self st) !! key) as [d|] eqn:Hd; simpl.
    - rewrite decide_True;
        [by rewrite (lookup_total_correct _ _ _ Hd) | by apply elem_of_elements, elem_of_dom].
    - rewrite decide_False; [done|].
      rewrite elem_of_elements, elem_of_dom, Hd. by intros [? ?]. }
  repeat split.
  - apply set_eq. intros key. rewrite !elem_of_dom, Hlook.
    by rewrite fmap_is_Some.
  - intros key d Hd. rewrite Hlook, Hd. simpl. unfold os_getenv. reflexivity.
  - intros dir key d. simpl. intros Hd.
    apply lookup_singleton_Some in Hd. naive_solver.
Qed.

(** The reading loop never fails to unpack: a line with an equals sign
    still has it after [strip()], and splits in two. *)
Lemma str_contains_rev_app c s : ∀ t,
  str_contains c (String.rev_app s t) = str_contains c s || str_contains c t.
Proof.
  induction s as [|a s IH]; intros t; simpl; [done|].
  rewrite IH. simpl.
  by destruct (bool_decide (a = c)), (str_contains c s), (str_contains c t).
Qed.

Lemma str_contains_lstrip c p s :
  p c = false → str_contains c (lstrip_by p s) = str_contains c s.
Proof.
  intros Hc. induction s as [|a s IH]; simpl; [done|].
  destruct (p a) eqn:Ha; [|done].
  rewrite IH. rewrite bool_decide_eq_false_2; [done | congruence].
Qed.

Lemma str_contains_rstrip c p s :
  p c = false → str_contains c (rstrip_by p s) = str_contains c s.
Proof.
  intros Hc. unfold rstrip_by, String.rev.
  rewrite str_contains_rev_app, str_contains_lstrip, str_contains_rev_app by done.
  simpl. by rewrite !orb_false_r.
Qed.

Lemma str_split1_contains sep s :
  str_contains sep s = true → ∃ a b, str_split1 sep s = [a; b].
Proof.
  induction s as [|c s IH]; simpl; [done|].
  destruct (decide (c = sep)) as [->|Hne]; [eauto|].
  rewrite bool_decide_eq_false_2 by done. simpl.
  intros Hs. destruct (IH Hs) as (a & b & ->). eauto.
Qed.

Lemma read_env_line_total env_data line :
  ∃ env_data', read_env_line env_data line = Ok env_data'.
Proof.
  unfold read_env_line. destruct (str_contains equals_sign line) eqn:Hc; [|eauto].
  destruct (str_split1_contains equals_sign (str_strip line)) as (k & v & ->); [|simpl; eauto].
  unfold str_strip. by rewrite str_contains_rstrip, str_contains_lstrip.
Qed.

Lemma read_env_lines_total lines : ∀ env_data,
  ∃ env_data', read_env_lines env_data lines = Ok env_data'.
Proof.
  induction lines as [|line rest IH]; intros env_data; simpl; [eauto|].
  destruct (read_env_line_total env_data line) as [env_data' ->]. apply IH.
Qed.

(** A line as [save_env_settings] writes it is read back under its key,
    provided the key has no equals sign and no leading whitespace. *)
Lemma str_rev_app s t : String.rev_app s t = String.rev s +:+ t.
Proof.
  revert t. induction s as [|a s IH]; intros t; [done|].
  unfold String.rev. simpl. by rewrite !IH, str_app_assoc.
Qed.

Lemma str_rev_cons a s : String.rev (String a s) = String.rev s +:+ String a "".
Proof. unfold String.rev. simpl. by rewrite str_rev_app. Qed.

Lemma str_rev_snoc s a : String.rev (s +:+ String a "") = String a (String.rev s).
Proof.
  induction s as [|b s IH]; [done|].
  by rewrite str_app_cons, !str_rev_cons, IH.
Qed.

Lemma str_rev_involutive s : String.rev (String.rev s) = s.
Proof.
  induction s as [|a s IH]; [done|]. by rewrite str_rev_cons, str_rev_snoc, IH.
Qed.

Lemma rstrip_by_snoc p s c :
  rstrip_by p (s +:+ String c "")
  = if p c then rstrip_by p s else s +:+ String c "".
Proof.
  unfold rstrip_by. rewrite str_rev_snoc. simpl. destruct (p c); [done|].
  by rewrite str_rev_cons, str_rev_involutive.
Qed.

Lemma lstrip_by_app_keep key rest :
  starts_with_space (key +:+ rest) = false →
  lstrip_by is_py_space (key +:+ rest) = key +:+ rest.
Proof. destruct (key +:+ rest); simpl; [done|]. by intros ->. Qed.

Lemma str_split1_app sep key rest :
  str_contains sep key = false →
  str_split1 sep (key +:+ String sep rest) = [key; rest].
Proof.
  induction key as [|c key IH]; simpl.
  - intros _. by rewrite decide_True.
  - intros [Hc Hkey]%orb_false_iff. apply bool_decide_eq_false in Hc.
    rewrite decide_False by done. by rewrite (IH Hkey).
Qed.

Lemma str_contains_app c s t :
  str_contains c (s +:+ t) = str_contains c s || str_contains c t.
Proof.
  induction s as [|a s IH]; [done|].
  rewrite str_app_cons. simpl. by rewrite IH, orb_assoc.
Qed.

Lemma rstrip_by_line p s q nl :
  p nl = true → p q = false →
  rstrip_by p ((s +:+ String q "") +:+ String nl "") = s +:+ String q "".
Proof. intros Hnl Hq. by rewrite !rstrip_by_snoc, Hnl, Hq. Qed.

Lemma read_env_line_env_line env_data key value :
  str_contains equals_sign key = false →
  starts_with_space key = false →
  read_env_line env_data (env_line key value)
  = Ok (<[key := str_strip_chars [single_quote; double_quote]
                   (String single_quote (value +:+ String single_quote ""))]> env_data).
Proof.
  intros Heq Hsp. unfold read_env_line.
  assert (str_contains equals_sign (env_line key value) = true) as ->.
  { unfold env_line. rewrite str_contains_app. apply orb_true_iff. right.
    reflexivity. }
  assert (str_strip (env_line key value)
          = key +:+ String equals_sign (String single_quote (value +:+ String single_quote "")))
    as ->.
  { assert (env_line key value
            = ((key +:+ "='" +:+ value) +:+ String single_quote "") +:+ String newline "")
      as Hline by (unfold env_line; by rewrite !str_app_assoc).
    assert (lstrip_by is_py_space (env_line key value) = env_line key value) as Hleft.
    { unfold env_line. apply lstrip_by_app_keep. destruct key; [done | exact Hsp]. }
    unfold str_strip. rewrite Hleft, Hline, rstrip_by_line by done.
    by rewrite !str_app_assoc. }
  by rewrite str_split1_app.
Qed.

(** *** The lines of a text *)

Lemma readlines_line body rest :
  str_contains newline body = false →
  readlines (body +:+ String newline rest) = (body +:+ String newline "") :: readlines rest.
Proof.
  induction body as [|c body IH]; simpl.
  - by intros _.
  - intros [Hc Hbody]%orb_false_iff. apply bool_decide_eq_false in Hc.
    rewrite decide_False by done. by rewrite (IH Hbody).
Qed.

Lemma env_line_split key value :
  env_line key value
  = (key +:+ "='" +:+ value +:+ "'") +:+ String newline "".
Proof. unfold env_line. by rewrite !str_app_assoc. Qed.

Lemma str_length_app s t : String.length (s +:+ t) = String.length s + String.length t.
Proof. induction s as [|a s IH]; [done|]. rewrite str_app_cons. simpl. by rewrite IH. Qed.


(** A text without a newline is one line, unless it is empty. *)
Lemma readlines_single line :
  str_contains newline line = false → line ≠ "" → readlines line = [line].
Proof.
  induction line as [|c line IH]; [done|]. simpl.
  intros [Hc Hl]%orb_false_iff _. apply bool_decide_eq_false in Hc.
  rewrite decide_False by done.
  destruct line as [|c' line']; [done|]. by rewrite IH.
Qed.


Lemma str_split1_inv sep s : ∀ k v,
  str_split1 sep s = [k; v] → s = k +:+ String sep v ∧ str_contains sep k = false.
Proof.
  induction s as [|a s IH]; intros k v; simpl; [done|].
  destruct (decide (a = sep)) as [->|Hne]; [by intros [= <- <-]|].
  destruct (str_split1 sep s) as [|h t] eqn:Hsp; [done|]. intros [= <- ->].
  destruct (IH h v eq_refl) as [-> Hh]. split; [done|].
  simpl. by rewrite bool_decide_eq_false_2.
Qed.

(** A text is empty, or one line without a newline, or a first line, its
    newline and the rest. *)
Lemma readlines_cases text :
  text = "" ∨
  (str_contains newline text = false ∧ text ≠ "" ∧ readlines text = [text]) ∨
  (∃ body rest,
     str_contains newline body = false ∧
     text = body +:+ String newline rest ∧
     readlines text = (body +:+ String newline "") :: readlines rest).
Proof.
  destruct (str_contains newline text) eqn:Hnl.
  - right. right.
    destruct (str_split1_contains _ _ Hnl) as (body & rest & Hsp).
    apply str_split1_inv in Hsp as [-> Hbody].
    exists body, rest. split; [done|]. split; [done|]. by apply readlines_line.
  - destruct text as [|c text]; [by left|]. right. left.
    split; [done|]. split; [done|]. by apply readlines_single.
Qed.


(** And every line that [for line in f] yields is a line of the text. *)
Lemma readlines_line_of n : ∀ text l,
  (String.length text ≤ n)%nat → l ∈ readlines text →
  ∃ line, line_of text line ∧ (l = line ∨ l = line +:+ String newline "").
Proof.
  induction n as [|n IH]; intros text l Hlen Hin.
  - destruct text; [by apply elem_of_nil in Hin | simpl in Hlen; lia].
  - destruct (readlines_cases text) as [-> | [(Hnl & Hne & Hr) | (body & rest & Hnl & -> & Hr)]].
    + by apply elem_of_nil in Hin.
    + rewrite Hr in Hin. apply list_elem_of_singleton in Hin as ->.
      exists text. split; [|by left]. split; [done|].
      exists "", "". split; [by rewrite str_app_nil_r | by split; left].
    + rewrite Hr in Hin. apply elem_of_cons in Hin as [-> | Hin].
      * exists body. split; [|by right]. split; [done|].
        exists "", (String newline rest). split; [done|]. split; [by left | right; eauto].
      * rewrite str_length_app in Hlen. simpl in Hlen.
        destruct (IH rest l) as (line & (Hline & before & after & -> & Hb & Ha) & Hl);
          [lia | done |].
        exists line. split; [|done]. split; [done|].
        exists (body +:+ String newline before), after. split.
        { by rewrite str_app_assoc. }
        split; [|done]. right. destruct Hb as [-> | [b ->]].
        -- by exists body.
        -- exists (body +:+ String newline b). by rewrite str_app_assoc.
Qed.

(** A whitespace character at the end of a string does not survive
    [strip()]. *)
Lemma str_strip_snoc_space s c :
  is_py_space c = true → str_strip (s +:+ String c "") = str_strip s.
Proof.
  intros Hc. unfold str_strip. induction s as [|a s IH].
  - simpl. by rewrite Hc.
  - rewrite str_app_cons. cbn [lstrip_by]. destruct (is_py_space a); [exact IH|].
    rewrite <- str_app_cons. by rewrite rstrip_by_snoc, Hc.
Qed.

(** A character that a string does not have is in none of its parts. *)
Lemma str_contains_lstrip_false c p s :
  str_contains c s = false → str_contains c (lstrip_by p s) = false.
Proof.
  induction s as [|a s IH]; simpl; [done|].
  intros [Ha Hs]%orb_false_iff. destruct (p a); [by apply IH|].
  simpl. by rewrite Ha, Hs.
Qed.

Lemma str_contains_rev c s : str_contains c (String.rev s) = str_contains c s.
Proof. unfold String.rev. rewrite str_contains_rev_app. simpl. by rewrite orb_false_r. Qed.

Lemma str_contains_rstrip_false c p s :
  str_contains c s = false → str_contains c (rstrip_by p s) = false.
Proof.
  intros Hs. unfold rstrip_by. rewrite str_contains_rev.
  apply str_contains_lstrip_false. by rewrite str_contains_rev.
Qed.

Lemma str_contains_strip_false c s :
  str_contains c s = false → str_contains c (str_strip s) = false.
Proof. intros Hs. by apply str_contains_rstrip_false, str_contains_lstrip_false. Qed.

(** The keys that the reading loop adds are those of the lines with an
    equals sign. *)
Lemma read_env_lines_keys lines : ∀ acc vars,
  read_env_lines acc lines = Ok vars →
  ∀ key, key ∈ dom vars ↔
         key ∈ dom acc ∨
         ∃ line value, line ∈ lines ∧ str_contains equals_sign line = true ∧
                       str_split1 equals_sign (str_strip line) = [key; value].
Proof.
  induction lines as [|line rest IH]; intros acc vars; simpl.
  - intros [= <-] key. split; [by left|]. intros [?|(l & v & Hin & _)]; [done|].
    by apply elem_of_nil in Hin.
  - unfold read_env_line.
    destruct (str_contains equals_sign line) eqn:Hc.
    + destruct (str_split1_contains equals_sign (str_strip line)) as (k & v & Hsplit).
      { unfold str_strip. by rewrite str_contains_rstrip, str_contains_lstrip. }
      rewrite Hsplit. simpl. intros Hrest key. rewrite (IH _ _ Hrest key).
      rewrite dom_insert_L, elem_of_union, elem_of_singleton. split.
      * intros [[->|Hacc] | (l & v' & Hin & Hl & Hs)].
        -- right. exists line, v. split; [by left | done].
        -- by left.
        -- right. exists l, v'. split; [by right | done].
      * intros [Hacc | (l & v' & [->|Hin]%elem_of_cons & Hl & Hs)].
        -- left. by right.
        -- left. left. congruence.
        -- right. by exists l, v'.
    + intros Hrest key. rewrite (IH _ _ Hrest key). split.
      * intros [Hacc | (l & v' & Hin & Hl & Hs)]; [by left|].
        right. exists l, v'. split; [by right | done].
      * intros [Hacc | (l & v' & [->|Hin]%elem_of_cons & Hl & Hs)]; [by left | congruence |].
        right. by exists l, v'.
Qed.
















(** What the reading loop collects has no newline in it. *)
Lemma str_split1_contains_false c sep s : ∀ k v,
  str_contains c s = false → str_split1 sep s = [k; v] →
  str_contains c k = false ∧ str_contains c v = false.
Proof.
  intros k v Hs [-> _]%str_split1_inv.
  rewrite str_contains_app in Hs. apply orb_false_iff in Hs as [Hk Hv].
  simpl in Hv. by apply orb_false_iff in Hv as [_ Hv].
Qed.

Lemma read_env_line_free c acc line acc' :
  str_contains c (str_strip line) = false →
  map_Forall (λ key value, str_contains c key = false ∧ str_contains c value = false) acc →
  read_env_line acc line = Ok acc' →
  map_Forall (λ key value, str_contains c key = false ∧ str_contains c value = false) acc'.
Proof.
  intros Hline Hacc. unfold read_env_line.
  destruct (str_contains equals_sign line); [|by intros [= <-]].
  destruct (str_split1 equals_sign (str_strip line)) as [|k [|v [|? ?]]] eqn:Hsp;
    simpl; try done.
  intros [= <-]. destruct (str_split1_contains_false _ _ _ _ _ Hline Hsp) as [Hk Hv].
  apply map_Forall_insert_2; [|done]. split; [done|].
  unfold str_strip_chars. by apply str_contains_rstrip_false, str_contains_lstrip_false.
Qed.

Lemma read_env_lines_free c lines : ∀ acc vars,
  (∀ l, l ∈ lines → str_contains c (str_strip l) = false) →
  map_Forall (λ key value, str_contains c key = false ∧ str_contains c value = false) acc →
  read_env_lines acc lines = Ok vars →
  map_Forall (λ key value, str_contains c key = false ∧ str_contains c value = false) vars.
Proof.
  induction lines as [|line rest IH]; intros acc vars Hlines Hacc; simpl.
  - by intros [= <-].
  - destruct (read_env_line acc line) as [acc'|e] eqn:Hline; [|done].
    apply IH; [intros l Hl; apply Hlines; by right|].
    eapply read_env_line_free; [|done..]. apply Hlines. by left.
Qed.

Lemma env_file_vars_no_newline p f existing :
  env_file_vars p f = Ok existing →
  map_Forall (λ key value, str_contains newline key = false ∧
                           str_contains newline value = false) existing.
Proof.
  unfold env_file_vars. destruct (path_exists p f); [|by intros [= <-]; apply map_Forall_empty].
  destruct (fs_open_r p f) as [text|e]; [|done].
  apply read_env_lines_free; [|apply map_Forall_empty].
  intros l Hl.
  destruct (readlines_line_of _ _ _ (le_n _) Hl) as (line & (Hline & _) & [-> | ->]).
  - by apply str_contains_strip_false.
  - rewrite str_strip_snoc_space by done. by apply str_contains_strip_false.
Qed.

(** The lines written for keys and values without a newline are the lines
    of the text written. *)
Lemma readlines_env_lines (env_data : gmap string string) keys :
  (∀ key, key ∈ keys → str_contains newline key = false ∧
                       str_contains newline (env_data !!! key) = false) →
  readlines (str_concat (map (λ key, env_line key (env_data !!! key)) keys))
  = map (λ key, env_line key (env_data !!! key)) keys.
Proof.
  induction keys as [|key keys IH]; intros Hok; [done|].
  destruct (Hok key) as [Hknl Hvnl]; [by left|].
  cbn [map str_concat]. rewrite env_line_split at 1. rewrite str_app_assoc.
  change (String newline "" +:+ ?rest) with (String newline rest).
  rewrite readlines_line.
  - rewrite IH; [by rewrite <- env_line_split|]. intros k Hk. apply Hok. by right.
  - rewrite !str_contains_app, Hknl, Hvnl. reflexivity.
Qed.

(** The writing loop of [save_env_settings] appends one line per key to the
    file it has open. *)
Lemma for_each_write p (env_data : gmap string string) keys : ∀ st cur,
  fs_files (fs st) !! p = Some cur →
  (∀ k, k ∈ keys → is_Some (env_data !! k)) →
  for_each keys
    (λ key, match env_data !! key with
            | Some value => f_write p (env_line key value)
            | None => raise KeyError
            end) st
  = (Ok (),
     set_fs (with_files
               (<[p := cur +:+ str_concat (map (λ key, env_line key (env_data !!! key)) keys)]>)
               (fs st)) st).
Proof.
  induction keys as [|k rest IH]; intros st cur Hcur Hkeys.
  - simpl. py_simpl. f_equal.
    destruct st as [s [files dirs denied] e]. unfold set_fs, with_files. simpl in *.
    by rewrite str_app_nil_r, insert_id.
  - destruct (Hkeys k) as [v Hv]; [set_solver|].
    cbn [for_each]. unfold mbind, Py_bind. rewrite Hv.
    unfold f_write at 1, modify at 1.
    rewrite (IH _ (cur +:+ env_line k v)).
    + f_equal. destruct st as [s [files dirs denied] e].
      unfold set_fs, with_files, fs_append. simpl in *.
      rewrite insert_insert_eq. cbn [map str_concat].
      by rewrite (lookup_total_correct _ _ _ Hv), str_app_assoc.
    + unfold set_fs, fs_append, with_files. simpl.
      by rewrite lookup_insert_eq, Hcur.
    + intros k' Hk'. apply Hkeys. set_solver.
Qed.

Lemma sorted_keys_elem_of (m : gmap string string) k :
  k ∈ sorted (elements (dom m)) ↔ k ∈ dom m.
Proof. unfold sorted. by rewrite merge_sort_Permutation, elem_of_elements. Qed.

(** What a save does, by cases on the file system. *)
Lemma save_env_cases settings st :
  save_env_settings settings st
  = match env_file_vars (env_file_path (self st)) (fs st) with
    | Raise _ => (Ok false, st)
    | Ok existing =>
        match fs_open_w (env_file_path (self st)) (fs st) with
        | Raise _ => (Ok false, st)
        | Ok f =>
            (Ok true,
             set_fs (with_files
                       (<[env_file_path (self st)
                          := env_text (dict_update existing
                                         (dict_merge (default_env_settings (self st)) settings))]>)
                       f) st)
        end
    end.
Proof.
  unfold save_env_settings, env_file_vars.
  unfold try_except, Exception.
  unfold mbind at 1, Py_bind at 1, get_state at 1.
  set (p := env_file_path (self st)).
  assert (∀ existing : gmap string string,
    (let env_data := dict_update existing (dict_merge (default_env_settings (self st)) settings) in
     open_w p;;
     for_each (sorted (elements (dom env_data)))
       (λ key, match env_data !! key with
               | Some value => f_write p (env_line key value)
               | None => raise KeyError
               end);;
     mret true) st
    = match fs_open_w p (fs st) with
      | Raise e => (Raise e, st)
      | Ok f =>
          (Ok true,
           set_fs (with_files
                     (<[p := env_text (dict_update existing
                                         (dict_merge (default_env_settings (self st)) settings))]>)
                     f) st)
      end) as Hwrite.
  { intros existing. cbv zeta. unfold mbind at 1, Py_bind at 1, open_w.
    destruct (fs_open_w p (fs st)) as [f|e] eqn:Hw; [|done].
    apply fs_open_w_Ok in Hw as (-> & _).
    unfold mbind, Py_bind.
    erewrite (for_each_write p _ _ _ EmptyString).
    - unfold mret, Py_ret. f_equal.
    - simpl. apply lookup_insert_eq.
    - intros k Hk. apply sorted_keys_elem_of in Hk. by apply elem_of_dom. }
  destruct (path_exists p (fs st)).
  - unfold mbind at 1, Py_bind at 1. unfold mbind at 1, Py_bind at 1, open_r at 1.
    destruct (fs_open_r p (fs st)) as [text|e]; [|done].
    unfold lift_result.
    destruct (read_env_lines ∅ (readlines text)) as [existing|e]; [|done].
    rewrite Hwrite. by destruct (fs_open_w p (fs st)).
  - unfold mbind at 1, Py_bind at 1, mret at 1, Py_ret at 1.
    rewrite Hwrite. by destruct (fs_open_w p (fs st)).
Qed.


(** The merge of [save_env_settings]: the new values, else the defaults,
    else what the file had. *)
Lemma env_merge_lookup (existing defaults settings : gmap string string) key :
  dict_update existing (dict_merge defaults settings) !! key
  = match settings !! key with
    | Some v => Some v
    | None =>
        match defaults !! key with
        | Some d => Some d
        | None => existing !! key
        end
    end.
Proof.
  unfold dict_update, dict_merge. rewrite !lookup_union.
  by destruct (settings !! key), (defaults !! key), (existing !! key).
Qed.


(** A successful save, spelled out. *)
Lemma save_env_success settings st st' :
  save_env_settings settings st = (Ok true, st') →
  ∃ existing,
    env_file_vars (env_file_path (self st)) (fs st) = Ok existing ∧
    self st' = self st ∧
    fs_files (fs st') !! env_file_path (self st)
    = Some (env_text (dict_update existing
                        (dict_merge (default_env_settings (self st)) settings))).
Proof.
  rewrite save_env_cases.
  destruct (env_file_vars _ _) as [existing|e]; [|done].
  destruct (fs_open_w _ _) as [f|e]; [|done].
  intros [= <-]. exists existing. repeat split. simpl. apply lookup_insert_eq.
Qed.

(** A save returns a boolean, and it is [True] as soon as the file can be
    opened for writing. *)
Lemma save_env_returns settings st :
  ∃ ok st', save_env_settings settings st = (Ok ok, st').
Proof.
  rewrite save_env_cases.
  destruct (env_file_vars _ _); [|eauto]. destruct (fs_open_w _ _); eauto.
Qed.

Lemma save_env_succeeds settings st f :
  fs_open_w (env_file_path (self st)) (fs st) = Ok f →
  ∃ st', save_env_settings settings st = (Ok true, st').
Proof.
  intros Hw. rewrite save_env_cases, Hw.
  assert (∃ existing, env_file_vars (env_file_path (self st)) (fs st) = Ok existing)
    as [existing ->]; [|eauto].
  apply fs_open_w_Ok in Hw as (_ & Hden & Hbelow & Hdir).
  unfold env_file_vars, path_exists.
  destruct (fs_files (fs st) !! env_file_path (self st)) as [text|] eqn:Hf.
  - rewrite bool_decide_eq_true_2 by eauto. simpl.
    rewrite (fs_open_r_file _ _ text) by done. apply read_env_lines_total.
  - rewrite !bool_decide_eq_false_2; [eauto | done | by intros [? ?]].
Qed.

(** The merged dict has no newline in it when the new values and the
    defaults have none: what the reading loop collected never has. *)
Lemma env_merge_no_newline (existing defaults settings : gmap string string) key value :
  map_Forall (λ key value, str_contains newline key = false ∧
                           str_contains newline value = false) existing →
  no_line_breaks defaults → no_line_breaks settings →
  dict_update existing (dict_merge defaults settings) !! key = Some value →
  str_contains newline key = false ∧ str_contains newline value = false.
Proof.
  intros Hex Hd Hs. rewrite env_merge_lookup.
  destruct (settings !! key) as [v|] eqn:Hsk.
  { intros [= <-]. destruct (Hs _ _ Hsk) as [[? _] [? _]]. done. }
  destruct (defaults !! key) as [d|] eqn:Hdk.
  { intros [= <-]. destruct (Hd _ _ Hdk) as [[? _] [? _]]. done. }
  apply Hex.
Qed.

(** The lines of the file that a successful save leaves, when the new values
    and the defaults have no line break in them. *)
Lemma save_env_lines settings st st' :
  save_env_settings settings st = (Ok true, st') →
  no_line_breaks settings →
  no_line_breaks (default_env_settings (self st)) →
  ∃ existing env_data,
    env_file_vars (env_file_path (self st)) (fs st) = Ok existing ∧
    env_data = dict_update existing (dict_merge (default_env_settings (self st)) settings) ∧
    fs_files (fs st') !! env_file_path (self st) = Some (env_text env_data) ∧
    (∀ key, key ∈ sorted (elements (dom env_data)) →
            str_contains newline key = false ∧
            str_contains newline (env_data !!! key) = false) ∧
    readlines (env_text env_data)
    = map (λ key, env_line key (env_data !!! key)) (sorted (elements (dom env_data))).
Proof.
  intros Hsave Hs Hd.
  destruct (save_env_success _ _ _ Hsave) as (existing & Hex & _ & Hfile).
  eexists existing, _. split; [done|]. split; [done|]. split; [done|].
  match goal with |- ?A ∧ _ => assert A as Hfree end; [|split; [done|]; by apply readlines_env_lines].
  intros key [value Hv]%sorted_keys_elem_of%elem_of_dom.
  rewrite (lookup_total_correct _ _ _ Hv).
  apply (env_merge_no_newline existing (default_env_settings (self st)) settings);
    [|done..].
  by apply (env_file_vars_no_newline (env_file_path (self st)) (fs st)).
Qed.


(** The precedence among the three sources of a saved value, as the code
    has it: a default key that the new values omit is written with its
    default, whatever the file had for it. *)
Lemma save_env_precedence settings st st' :
  save_env_settings settings st = (Ok true, st') →
  ∃ (existing env_data : gmap string string),
    env_file_vars (env_file_path (self st)) (fs st) = Ok existing ∧
    fs_files (fs st') !! env_file_path (self st) = Some (env_text env_data) ∧
    ∀ key,
      env_data !! key
      = match settings !! key with
        | Some v => Some v
        | None =>
            match default_env_settings (self st) !! key with
            | Some d => Some d
            | None => existing !! key
            end
        end.
Proof.
  intros Hsave.
  destruct (save_env_success _ _ _ Hsave) as (existing & Hex & _ & Hfile).
  eexists existing, _. split; [done|]. split; [done|].
  intros key. apply env_merge_lookup.
Qed.

End Env.

(** ** Initialization *)

Section Init.
Context `{PyLib}.

Lemma same_but_refl p st : same_but p st st.
Proof. by repeat split. Qed.

Lemma same_but_trans p st1 st2 st3 :
  same_but p st1 st2 → same_but p st2 st3 → same_but p st1 st3.
Proof.
  intros (Hs & He & Hd & Hn & Hf) (Hs' & He' & Hd' & Hn' & Hf').
  repeat split; try congruence.
  intros q Hq. rewrite Hf', Hf; done.
Qed.

Lemma open_w_same_but p st r st' :
  open_w p st = (r, st') →
  (∃ e, r = Raise e ∧ st' = st) ∨
  (r = Ok () ∧ same_but p st st' ∧ is_Some (fs_files (fs st') !! p)).
Proof.
  unfold open_w. destruct (fs_open_w p (fs st)) as [f|e] eqn:Hw; intros [= <- <-]; [|eauto].
  apply fs_open_w_Ok in Hw as (-> & _).
  right. split; [done|]. split.
  - repeat split. intros q Hq. simpl. by apply lookup_insert_ne.
  - simpl. rewrite lookup_insert_eq. eauto.
Qed.

Lemma f_write_same_but p text st :
  ∃ st', f_write p text st = (Ok (), st') ∧ same_but p st st' ∧
         is_Some (fs_files (fs st') !! p).
Proof.
  eexists. split; [reflexivity|]. split.
  - repeat split. intros q Hq. simpl. by apply lookup_insert_ne.
  - simpl. rewrite lookup_insert_eq. eauto.
Qed.

Lemma for_each_f_write_same_but p (line : string → string) keys : ∀ st,
  is_Some (fs_files (fs st) !! p) →
  ∃ st', for_each keys (λ key, f_write p (line key)) st = (Ok (), st') ∧
         same_but p st st' ∧ is_Some (fs_files (fs st') !! p).
Proof.
  induction keys as [|k rest IH]; intros st Hp.
  - exists st. split; [done|]. split; [apply same_but_refl | done].
  - destruct (f_write_same_but p (line k) st) as (st1 & Hw & Hsb & Hp1).
    destruct (IH st1 Hp1) as (st2 & Hrest & Hsb2 & Hp2).
    exists st2. split; [|split; [by eapply same_but_trans | done]].
    cbn [for_each]. unfold mbind, Py_bind. by rewrite Hw.
Qed.

(** A helper that opens [p] and then only writes to it. *)
Lemma create_same_but p (body : Py unit) st r st' :
  (∀ st1, is_Some (fs_files (fs st1) !! p) →
          ∃ st2, body st1 = (Ok (), st2) ∧ same_but p st1 st2 ∧
                 is_Some (fs_files (fs st2) !! p)) →
  (open_w p;; body) st = (r, st') →
  (∃ e, r = Raise e ∧ st' = st) ∨
  (r = Ok () ∧ same_but p st st' ∧ is_Some (fs_files (fs st') !! p)).
Proof.
  intros Hbody. unfold mbind, Py_bind.
  destruct (open_w p st) as [[[]|e] st1] eqn:Ho.
  - apply open_w_same_but in Ho as [(e & ? & _) | (_ & Hsb & Hp)]; [done|].
    destruct (Hbody st1 Hp) as (st2 & -> & Hsb2 & Hp2).
    intros [= <- <-]. right. split; [done|]. split; [by eapply same_but_trans | done].
  - apply open_w_same_but in Ho as [(e' & _ & ->) | (? & _)]; [|done].
    intros [= <- <-]. eauto.
Qed.

Lemma create_example_env_same_but st r st' :
  _create_example_env st = (r, st') →
  (∃ e, r = Raise e ∧ st' = st) ∨
  (r = Ok () ∧ same_but (example_env_file (self st)) st st' ∧
   is_Some (fs_files (fs st') !! example_env_file (self st))).
Proof.
  unfold _create_example_env. unfold mbind at 1, Py_bind at 1, get_state.
  apply create_same_but. intros st1 Hp. by apply for_each_f_write_same_but.
Qed.

Lemma create_default_devices_same_but st r st' :
  _create_default_devices st = (r, st') →
  (∃ e, r = Raise e ∧ st' = st) ∨
  (r = Ok () ∧ same_but (mobile_devices_path (self st)) st st' ∧
   is_Some (fs_files (fs st') !! mobile_devices_path (self st))).
Proof.
  unfold _create_default_devices. unfold mbind at 1, Py_bind at 1, get_state.
  apply create_same_but. intros st1 Hp. apply f_write_same_but.
Qed.

Lemma create_empty_entities_same_but st r st' :
  _create_empty_telegram_entities st = (r, st') →
  (∃ e, r = Raise e ∧ st' = st) ∨
  (r = Ok () ∧ same_but (telegram_entities_path (self st)) st st' ∧
   is_Some (fs_files (fs st') !! telegram_entities_path (self st))).
Proof.
  unfold _create_empty_telegram_entities. unfold mbind at 1, Py_bind at 1, get_state.
  apply create_same_but. intros st1 Hp. apply f_write_same_but.
Qed.

Lemma created_only_refl P st : created_only P st st.
Proof. repeat split. by left. Qed.

Lemma path_exists_eq q f f' :
  fs_files f' !! q = fs_files f !! q → fs_dirs f' = fs_dirs f →
  path_exists q f' = path_exists q f.
Proof. unfold path_exists. by intros -> ->. Qed.

Lemma created_only_exists P st st' q :
  created_only P st st' → path_exists q (fs st) = true → path_exists q (fs st') = true.
Proof.
  intros (_ & _ & Hd & _ & Hf) Hq.
  destruct (Hf q) as [Heq | [_ Hno]]; [|congruence].
  by rewrite (path_exists_eq q (fs st) (fs st')).
Qed.

(** One guarded creation of [_initialize_config_files]. *)
Lemma guarded_create (P : Path → Prop) st0 st p (create : Py unit) r st' :
  created_only P st0 st → P p →
  (∀ r st', create st = (r, st') →
     (∃ e, r = Raise e ∧ st' = st) ∨
     (r = Ok () ∧ same_but p st st' ∧ is_Some (fs_files (fs st') !! p))) →
  (if negb (path_exists p (fs st)) then create else mret ()) st = (r, st') →
  created_only P st0 st' ∧ (r = Ok () → path_exists p (fs st') = true).
Proof.
  intros Hco HP Hcreate.
  destruct (path_exists p (fs st)) eqn:Hp; simpl.
  - intros [= <- <-]. done.
  - intros Hrun. apply Hcreate in Hrun as [(e & -> & ->) | (-> & Hsb & Hsome)]; [done|].
    destruct Hco as (Hs & He & Hd & Hn & Hf).
    destruct Hsb as (Hs' & He' & Hd' & Hn' & Hf').
    split.
    + repeat split; try congruence.
      intros q. destruct (decide (q = p)) as [->|Hq].
      * right. split; [done|].
        destruct (Hf p) as [Heq | [_ Hno]]; [|done].
        by rewrite <- (path_exists_eq p (fs st0) (fs st)).
      * rewrite Hf' by done. apply Hf.
    + intros _. unfold path_exists. by rewrite bool_decide_eq_true_2.
Qed.

Lemma initialize_config_files_spec st r st' :
  _initialize_config_files st = (r, st') →
  created_only (default_file (self st)) st st' ∧
  (r = Ok () → ∀ p, default_file (self st) p → path_exists p (fs st') = true).
Proof.
  unfold _initialize_config_files.
  unfold mbind at 1, Py_bind at 1, get_state at 1.
  unfold mbind at 1, Py_bind at 1.
  destruct ((if negb (path_exists (example_env_file (self st)) (fs st))
             then _create_example_env else mret ()) st) as [r1 st1] eqn:H1.
  apply (guarded_create (default_file (self st)) st) in H1 as [Hco1 Hex1];
    [| apply created_only_refl | by left | apply create_example_env_same_but].
  destruct r1 as [[]|e]; [|intros [= <- <-]; by split].
  assert (self st1 = self st) as Hs1 by apply Hco1.
  unfold mbind at 1, Py_bind at 1, get_state at 1.
  unfold mbind at 1, Py_bind at 1. rewrite Hs1.
  destruct ((if negb (path_exists (mobile_devices_path (self st)) (fs st1))
             then _create_default_devices else mret ()) st1) as [r2 st2] eqn:H2.
  pose proof H2 as H2'.
  apply (guarded_create (default_file (self st)) st) in H2 as [Hco2 Hex2];
    [| done | by right; left
     | rewrite <- Hs1; apply create_default_devices_same_but].
  apply (guarded_create (default_file (self st)) st1) in H2' as [Hco12 _];
    [| apply created_only_refl | by right; left
     | rewrite <- Hs1; apply create_default_devices_same_but].
  destruct r2 as [[]|e]; [|intros [= <- <-]; by split].
  assert (self st2 = self st) as Hs2 by apply Hco2.
  unfold mbind at 1, Py_bind at 1, get_state at 1. rewrite Hs2.
  intros H3. pose proof H3 as H3'.
  apply (guarded_create (default_file (self st)) st) in H3 as [Hco3 Hex3];
    [| done | by right; right
     | rewrite <- Hs2; apply create_empty_entities_same_but].
  apply (guarded_create (default_file (self st)) st2) in H3' as [Hco23 _];
    [| apply created_only_refl | by right; right
     | rewrite <- Hs2; apply create_empty_entities_same_but].
  split; [done|]. intros Hr p [-> | [-> | ->]].
  - eapply created_only_exists; [exact Hco23|].
    eapply created_only_exists; [exact Hco12|]. by apply Hex1.
  - eapply created_only_exists; [exact Hco23|]. by apply Hex2.
  - by apply Hex3.
Qed.

Lemma path_prefixes_self p : p ∈ path_prefixes p.
Proof.
  induction p as [|x p IH]; simpl; [by left|].
  right. apply list_elem_of_fmap. eauto.
Qed.

Lemma mkdir_p_spec p f f' :
  fs_mkdir_p p f = Ok f' →
  fs_files f' = fs_files f ∧ fs_denied f' = fs_denied f ∧
  fs_dirs f ⊆ fs_dirs f' ∧ p ∈ fs_dirs f'.
Proof.
  unfold fs_mkdir_p. case_decide as Hin; [by intros [= <-]|].
  repeat (case_match; [done|]). intros [= <-]. simpl.
  repeat split; [set_solver|].
  apply elem_of_union_l, elem_of_list_to_set, path_prefixes_self.
Qed.

Lemma mkdir_p_again p f : p ∈ fs_dirs f → fs_mkdir_p p f = Ok f.
Proof. intros Hin. unfold fs_mkdir_p. by rewrite decide_True. Qed.

Lemma path_exists_dirs_mono q f f' :
  fs_files f' = fs_files f → fs_dirs f ⊆ fs_dirs f' →
  path_exists q f' = false → path_exists q f = false.
Proof.
  unfold path_exists. intros -> Hsub.
  rewrite !orb_false_iff, !bool_decide_eq_false. set_solver.
Qed.

(** What [__init__] does to the world, by cases. *)
Lemma init_cases dir fs0 env0 r st :
  __init__ dir fs0 env0 = (r, st) →
  self st = new_manager dir ∧
  ((∃ e, r = Raise e ∧ fs st = fs0) ∨
   (∃ f1 e, fs_mkdir_p dir fs0 = Ok f1 ∧ r = Raise e ∧ fs st = f1) ∨
   (∃ f1 env1,
      fs_mkdir_p dir fs0 = Ok f1 ∧
      _initialize_config_files
        {| self := new_manager dir; fs := f1; environ := env1 |} = (r, st))).
Proof.
  unfold __init__, _check_config_dir.
  unfold mbind at 1, Py_bind at 1. cbn [self fs config_dir new_manager].
  destruct (fs_mkdir_p dir fs0) as [f1|e] eqn:Hmk.
  - unfold mbind at 1, Py_bind at 1, get_state at 1.
    unfold mbind at 1, Py_bind at 1, lift_result at 1. cbn [self fs environ set_fs].
    destruct (load_dotenv _ f1 env0) as [env1|e] eqn:Hld.
    + unfold mbind at 1, Py_bind at 1, modify at 1, set_environ. cbn [self fs environ].
      intros Hinit. split.
      * apply initialize_config_files_spec in Hinit as [(Hs & _) _]. by rewrite Hs.
      * right. right. by exists f1, env1.
    + intros [= <- <-]. split; [done|]. right. left. by exists f1, e.
  - intros [= <- <-]. split; [done|]. left. by exists e.
Qed.

Lemma initialize_config_files_noop st :
  (∀ p, default_file (self st) p → path_exists p (fs st) = true) →
  _initialize_config_files st = (Ok (), st).
Proof.
  intros Hall. unfold _initialize_config_files.
  unfold mbind, Py_bind, get_state, mret, Py_ret.
  rewrite (Hall (example_env_file (self st))) by (by left). simpl.
  rewrite (Hall (mobile_devices_path (self st))) by (by right; left). simpl.
  by rewrite (Hall (telegram_entities_path (self st))) by (by right; right).
Qed.

(** The files after [__init__]: each as before, or one of the three default
    files that did not exist. *)
Lemma init_frame dir fs0 env0 r st :
  __init__ dir fs0 env0 = (r, st) →
  ∀ q, fs_files (fs st) !! q = fs_files fs0 !! q ∨
       (default_file (new_manager dir) q ∧ path_exists q fs0 = false).
Proof.
  intros Hinit q.
  destruct (init_cases _ _ _ _ _ Hinit)
    as [_ [(e & _ & ->) | [(f1 & e & Hmk & _ & ->) | (f1 & env1 & Hmk & Hrun)]]].
  - by left.
  - left. apply mkdir_p_spec in Hmk as (-> & _). done.
  - apply mkdir_p_spec in Hmk as (Hfiles & _ & Hdirs & _).
    apply initialize_config_files_spec in Hrun as [(_ & _ & _ & _ & Hf) _].
    destruct (Hf q) as [Heq | [HP Hno]]; simpl in *.
    + left. by rewrite Heq, Hfiles.
    + right. split; [done|]. by eapply path_exists_dirs_mono.
Qed.

Lemma init_keeps_files dir fs0 env0 r st p text :
  __init__ dir fs0 env0 = (r, st) →
  fs_files fs0 !! p = Some text → fs_files (fs st) !! p = Some text.
Proof.
  intros Hinit Hp.
  destruct (init_frame _ _ _ _ _ Hinit p) as [Heq | [_ Hno]]; [by rewrite Heq|].
  unfold path_exists in Hno. apply orb_false_iff in Hno as [Hno _].
  apply bool_decide_eq_false in Hno. destruct Hno. by rewrite Hp.
Qed.

(** After a call that returned, a second call changes nothing on disk. *)
Lemma init_twice dir fs0 env0 st r2 st2 :
  __init__ dir fs0 env0 = (Ok (), st) →
  __init__ dir (fs st) (environ st) = (r2, st2) →
  fs st2 = fs st.
Proof.
  intros Hinit Hagain.
  destruct (init_cases _ _ _ _ _ Hinit)
    as [_ [(e & ? & _) | [(f1 & e & _ & ? & _) | (f1 & env1 & Hmk & Hrun)]]]; [done..|].
  apply mkdir_p_spec in Hmk as (_ & _ & _ & Hdir).
  apply initialize_config_files_spec in Hrun as [(Hs & _ & Hd & _ & _) Hall].
  simpl in Hs, Hd, Hall. specialize (Hall eq_refl).
  assert (fs_mkdir_p dir (fs st) = Ok (fs st)) as Hmk2.
  { apply mkdir_p_again. by rewrite Hd. }
  destruct (init_cases _ _ _ _ _ Hagain)
    as [_ [(e & _ & ->) | [(f1' & e & Hmk' & _ & ->) | (f1' & env1' & Hmk' & Hrun')]]].
  - done.
  - congruence.
  - assert (f1' = fs st) as -> by congruence.
    rewrite initialize_config_files_noop in Hrun'; [by injection Hrun' as _ <-|].
    simpl. done.
Qed.

(** C8.  [__init__] leaves every file that exists with the text it has, and
    changes the files only by creating those of the example environment
    file, the device list and the entities document that do not exist;
    hence a second call on the same directory keeps every file that exists
    by then, and after a first call that returned it changes nothing on
    disk. *)
Theorem init_creates_only_missing dir fs0 env0 r st :
  __init__ dir fs0 env0 = (r, st) →
  (∀ p text, fs_files fs0 !! p = Some text → fs_files (fs st) !! p = Some text) ∧
  (∀ p, fs_files (fs st) !! p ≠ fs_files fs0 !! p →
        default_file (new_manager dir) p ∧ path_exists p fs0 = false) ∧
  (∀ r2 st2,
     __init__ dir (fs st) (environ st) = (r2, st2) →
     (∀ p text, fs_files (fs st) !! p = Some text → fs_files (fs st2) !! p = Some text) ∧
     (r = Ok () → fs st2 = fs st)).
Proof.
  intros Hinit. split; [|split].
  - intros p text. by eapply init_keeps_files.
  - intros p Hne. by destruct (init_frame _ _ _ _ _ Hinit p).
  - intros r2 st2 Hagain. split.
    + intros p text. by eapply init_keeps_files.
    + intros ->. by eapply init_twice.
Qed.

End Init.

(** * Concrete runs *)

Lemma run_eq {A} (m : Py A) st r : result m st = r → m st = (r, after m st).
Proof. unfold result, after. intros <-. by destruct (m st). Qed.

(** ** The document cache *)

Lemma write_read_roundtrip_witness :
  _write_json_file devices_json (PList two_devices) (sample_state (PList []) None)
  = (Ok true,
     after (_write_json_file devices_json (PList two_devices)) (sample_state (PList []) None)) ∧
  result (_read_json_file devices_json)
    (after (_write_json_file devices_json (PList two_devices)) (sample_state (PList []) None))
  = Ok (PList two_devices).
Proof.
  assert (_write_json_file devices_json (PList two_devices) (sample_state (PList []) None)
          = (Ok true,
             after (_write_json_file devices_json (PList two_devices))
               (sample_state (PList []) None))) as Hwrite.
  { apply run_eq. vm_compute. reflexivity. }
  split; [exact Hwrite|].
  destruct (write_read_roundtrip _ _ _ _ Hwrite) as [Hread _].
  unfold result. by rewrite Hread.
Defined.

Lemma failed_write_keeps_cache_witness :
  _write_json_file devices_json (PList two_devices) (locked_state (PList []))
  = (Ok false,
     after (_write_json_file devices_json (PList two_devices)) (locked_state (PList []))) ∧
  _config_cache
    (self (after (_write_json_file devices_json (PList two_devices)) (locked_state (PList []))))
  = _config_cache (self (locked_state (PList []))) ∧
  result (_read_json_file devices_json)
    (after (_write_json_file devices_json (PList two_devices)) (locked_state (PList [])))
  = Ok (PList []).
Proof.
  assert (_write_json_file devices_json (PList two_devices) (locked_state (PList []))
          = (Ok false,
             after (_write_json_file devices_json (PList two_devices))
               (locked_state (PList [])))) as Hwrite.
  { apply run_eq. vm_compute. reflexivity. }
  split; [exact Hwrite|].
  destruct (failed_write_keeps_cache _ _ _ _ Hwrite) as (_ & Hcache & Hread & _).
  split; [exact Hcache|].
  unfold result. rewrite (Hread (PList [])); [done|]. vm_compute. reflexivity.
Defined.

Lemma read_fallback_not_cached_witness :
  _read_json_file entities_json broken_entities_state
  = (Ok (PDict []), broken_entities_state) ∧
  _read_json_file devices_json
    {| self := new_manager ["config"]; fs := empty_fs; environ := ∅ |}
  = (Ok (PList []), {| self := new_manager ["config"]; fs := empty_fs; environ := ∅ |}).
Proof.
  split.
  - destruct (read_fallback_not_cached entities_json broken_entities_state)
      as (fallback & Hread & _ & Hdict & _).
    + vm_compute. reflexivity.
    + right. exists "{ not json". split; vm_compute; reflexivity.
    + rewrite Hread, Hdict; [reflexivity|]. vm_compute. discriminate.
  - destruct (read_fallback_not_cached devices_json
                {| self := new_manager ["config"]; fs := empty_fs; environ := ∅ |})
      as (fallback & Hread & Hlist & _).
    + vm_compute. reflexivity.
    + left. vm_compute. reflexivity.
    + rewrite Hread, Hlist; reflexivity.
Defined.

(** After an invalidation the document is read from the file again. *)
Example invalidate_then_read :
  result (_read_json_file devices_json) (locked_state (PList [])) = Ok (PList []) ∧
  result (_read_json_file devices_json)
    (after (invalidate_cache None)
       (set_fs (sample_fs (PList two_devices) None) (locked_state (PList []))))
  = Ok (PList two_devices).
Proof. split; vm_compute; reflexivity. Qed.

(** ** The device index *)




Lemma get_device_by_name_missing_name_witness :
  get_mobile_devices (sample_state (PList nameless_devices) None)
  = (Ok (PList nameless_devices),
     after get_mobile_devices (sample_state (PList nameless_devices) None)) ∧
  result (get_device_by_name "A") (sample_state (PList nameless_devices) None)
  = Raise KeyError.
Proof.
  assert (get_mobile_devices (sample_state (PList nameless_devices) None)
          = (Ok (PList nameless_devices),
             after get_mobile_devices (sample_state (PList nameless_devices) None)))
    as Hdevices.
  { apply run_eq. vm_compute. reflexivity. }
  split; [exact Hdevices|].
  destruct (get_device_by_name_missing_name "A"
              (sample_state (PList nameless_devices) None) _ _ eq_refl Hdevices)
    as (e & Hrun & _ & Hkey).
  - unfold nameless_devices. right. left.
    exists [("id", PInt 2)]. split; [reflexivity | vm_compute; reflexivity].
  - unfold result. rewrite Hrun, Hkey; [reflexivity|].
    unfold nameless_devices. constructor; [right | constructor; [left | constructor]].
    + exists [("name", PStr "A"); ("id", PInt 1)], (PStr "A"), (KStr "A").
      split; [reflexivity | split; vm_compute; reflexivity].
    + exists [("id", PInt 2)]. split; [reflexivity | vm_compute; reflexivity].
Defined.

(** Once built, the index is what answers: after the device document is
    rewritten, the lookup still returns the record of the old list, until
    the cache is invalidated. *)
Example device_index_is_stale_until_invalidated :
  result (get_device_by_name "B")
    (after (_write_json_file devices_json (PList [device (PStr "B") 7]))
       (after (get_device_by_name "B") (sample_state (PList two_devices) None)))
  = Ok (Some (device (PStr "B") 2)) ∧
  result (get_device_by_name "B")
    (after (invalidate_cache None)
       (after (_write_json_file devices_json (PList [device (PStr "B") 7]))
          (after (get_device_by_name "B") (sample_state (PList two_devices) None))))
  = Ok (Some (device (PStr "B") 7)).
Proof. split; vm_compute; reflexivity. Qed.

(** ** Environment settings *)

(** The process environment decides, not the [.env] file. *)
Example get_env_settings_run :
  items (result get_env_settings
           (set_environ {[ "TELEGRAM_API_ID" := "42"; "HOME" := "/root" ]}
              (sample_state (PList []) None)))
  = Ok [("TELEGRAM_API_ID", "42")] ∧
  items (result get_env_settings
           (sample_state (PList []) (Some (dotenv_line "TELEGRAM_API_ID='42'"))))
  = Ok [("TELEGRAM_API_ID", "")].
Proof. split; vm_compute; reflexivity. Qed.



(** An existing file of two lines, the keys not in order: both are kept and
    the file comes out sorted. *)
Example save_env_keeps_every_line :
  result (save_env_settings {[ "BAR" := "2" ]})
    (sample_state (PList []) (Some (dotenv_line "ZED=9" +:+ dotenv_line "FOO='1'")))
  = Ok true ∧
  fs_files (fs (after (save_env_settings {[ "BAR" := "2" ]})
                  (sample_state (PList [])
                     (Some (dotenv_line "ZED=9" +:+ dotenv_line "FOO='1'"))))) !! dotenv_file
  = Some (dotenv_line "BAR='2'" +:+ dotenv_line "FOO='1'" +:+ dotenv_line "TELEGRAM_API_ID=''"
          +:+ dotenv_line "ZED='9'").
Proof. split; vm_compute; reflexivity. Qed.

(** C1, the code at the failing input: the file has [TELEGRAM_API_ID='123'],
    the new values are empty, and the save succeeds and writes the default,
    an empty value, over the value the file had. *)
Theorem save_env_resets_default_key :
  items (env_file_vars dotenv_file
           (sample_fs (PList []) (Some (dotenv_line "TELEGRAM_API_ID='123'"))))
  = Ok [("TELEGRAM_API_ID", "123")] ∧
  default_env_settings (new_manager ["config"]) = {[ "TELEGRAM_API_ID" := "" ]} ∧
  result (save_env_settings ∅)
    (sample_state (PList []) (Some (dotenv_line "TELEGRAM_API_ID='123'")))
  = Ok true ∧
  fs_files (fs (after (save_env_settings ∅)
                  (sample_state (PList []) (Some (dotenv_line "TELEGRAM_API_ID='123'")))))
    !! dotenv_file
  = Some (dotenv_line "TELEGRAM_API_ID=''").
Proof.
  split; [vm_compute; reflexivity|]. split; [reflexivity|].
  split; vm_compute; reflexivity.
Qed.

(** ** Initialization *)

Lemma init_creates_only_missing_witness :
  __init__ ["config"] (project_fs "FOO='1'") ∅
  = (Ok (), (__init__ ["config"] (project_fs "FOO='1'") ∅).2) ∧
  fs_files (fs (__init__ ["config"] (project_fs "FOO='1'") ∅).2) !! dotenv_file
  = Some (dotenv_line "FOO='1'") ∧
  fs (__init__ ["config"]
        (fs (__init__ ["config"] (project_fs "FOO='1'") ∅).2)
        (environ (__init__ ["config"] (project_fs "FOO='1'") ∅).2)).2
  = fs (__init__ ["config"] (project_fs "FOO='1'") ∅).2.
Proof.
  assert (__init__ ["config"] (project_fs "FOO='1'") ∅
          = (Ok (), (__init__ ["config"] (project_fs "FOO='1'") ∅).2)) as Hinit.
  { assert ((__init__ ["config"] (project_fs "FOO='1'") ∅).1 = Ok ()) as Hr
      by (vm_compute; reflexivity).
    rewrite <- Hr. apply surjective_pairing. }
  split; [exact Hinit|].
  destruct (init_creates_only_missing _ _ _ _ _ Hinit) as (Hkeep & _ & Hagain).
  split.
  - apply Hkeep. vm_compute. reflexivity.
  - by apply (Hagain _ _ (surjective_pairing _)).
Defined.

(** The documents that [__init__] creates are read back as an empty list and
    an empty dict. *)
Example init_then_read :
  (__init__ ["config"] empty_fs ∅).1 = Ok () ∧
  result get_mobile_devices (__init__ ["config"] empty_fs ∅).2 = Ok (PList []) ∧
  result (_read_json_file entities_json) (__init__ ["config"] empty_fs ∅).2 = Ok (PDict []) ∧
  result (get_device_by_name "A") (__init__ ["config"] empty_fs ∅).2 = Ok None.
Proof. repeat (split; [vm_compute; reflexivity|]). vm_compute. reflexivity. Qed.

(** * Further properties *)

(** ** Reading and writing documents *)

Section MoreCache.
Context `{PyLib}.

(** What a read does, by cases on the cache, the file system and the
    parser. *)
Lemma read_cases file_path st :
  _read_json_file file_path st
  = match _config_cache (self st) !! file_path with
    | Some data => (Ok data, st)
    | None =>
        let fallback :=
          if decide (file_path = mobile_devices_path (self st)) then PList [] else PDict [] in
        let handle (e : exn) : Result pyval * State :=
          if bool_decide (e = JSONDecodeError ∨ e = FileNotFoundError)
          then (Ok fallback, st) else (Raise e, st) in
        match fs_open_r file_path (fs st) with
        | Ok text =>
            match json_load text with
            | Ok data =>
                (Ok data, set_cache (<[file_path := data]> (_config_cache (self st))) st)
            | Raise e => handle e
            end
        | Raise e => handle e
        end
    end.
Proof.
  unfold _read_json_file. py_simpl.
  destruct (_config_cache (self st) !! file_path); [done|].
  destruct (fs_open_r file_path (fs st)) as [text|e]; simpl; [|done].
  by destruct (json_load text).
Qed.

Lemma read_repeat file_path st r st' :
  _read_json_file file_path st = (r, st') →
  _read_json_file file_path st' = (r, st').
Proof.
  intros Hread. pose proof Hread as Hcases. rewrite read_cases in Hcases.
  destruct (_config_cache (self st) !! file_path) as [cached|] eqn:Hc.
  { by injection Hcases as <- <-. }
  cbv zeta in Hcases.
  destruct (fs_open_r file_path (fs st)) as [text|e] eqn:Ho.
  - destruct (json_load text) as [data|e] eqn:Hj.
    + injection Hcases as <- <-. apply read_cached. simpl. apply lookup_insert_eq.
    + destruct (bool_decide _); by injection Hcases as <- <-.
  - destruct (bool_decide _); by injection Hcases as <- <-.
Qed.

(** X1.  A read repeated right away returns what the first one returned and
    leaves the state as the first one left it: a value is parsed at most
    once, and a fallback or an exception is produced again. *)
Theorem read_again file_path st r st' :
  _read_json_file file_path st = (r, st') →
  _read_json_file file_path st' = (r, st').
Proof. apply read_repeat. Qed.

(** X2.  The exceptions of a read.  A read raises exactly when nothing is
    cached for the path and opening the file or parsing it raises something
    other than a [FileNotFoundError] or a [JSONDecodeError]: a
    [PermissionError], an [IsADirectoryError], a [NotADirectoryError] for a
    path below a regular file, any other exception of the parser.  That
    exception is the one that leaves the method, and the state is left as it
    was. *)
Theorem read_raises file_path st e st' :
  _read_json_file file_path st = (Raise e, st') ↔
  e ≠ FileNotFoundError ∧ e ≠ JSONDecodeError ∧
  st' = st ∧
  _config_cache (self st) !! file_path = None ∧
  (fs_open_r file_path (fs st) = Raise e ∨
   ∃ text, fs_open_r file_path (fs st) = Ok text ∧ json_load text = Raise e).
Proof.
  rewrite read_cases.
  destruct (_config_cache (self st) !! file_path) as [cached|] eqn:Hc.
  { split; [done | by intros (_ & _ & _ & ? & _)]. }
  cbv zeta beta.
  assert (∀ e0,
    (fs_open_r file_path (fs st) = Raise e ∨
     ∃ text, fs_open_r file_path (fs st) = Ok text ∧ json_load text = Raise e) → e = e0 →
    (if bool_decide (e0 = JSONDecodeError ∨ e0 = FileNotFoundError)
     then (Ok (if decide (file_path = mobile_devices_path (self st))
               then PList [] else PDict []), st)
     else (Raise e0, st)) = (Raise e, st') ↔
    e ≠ FileNotFoundError ∧ e ≠ JSONDecodeError ∧ st' = st ∧ @None pyval = None ∧
    (fs_open_r file_path (fs st) = Raise e ∨
     ∃ text, fs_open_r file_path (fs st) = Ok text ∧ json_load text = Raise e)) as Hhandle.
  { intros e0 Hsrc <-. case_bool_decide as He.
    - split; [done|]. intros (Hf & Hj & _). destruct He; contradiction.
    - split.
      + intros [= <-]. repeat split; [intros ->; apply He; by right
                                      | intros ->; apply He; by left | done].
      + by intros (_ & _ & -> & _). }
  destruct (fs_open_r file_path (fs st)) as [text|e0] eqn:Ho.
  - destruct (json_load text) as [data|e0] eqn:Hj.
    + split; [done|]. intros (_ & _ & _ & _ & [? | (t & [= <-] & ?)]); congruence.
    + destruct (decide (e = e0)) as [->|Hne]; [apply Hhandle; [right; eauto | done]|].
      split.
      * case_bool_decide; [done|]. intros [= <-]. done.
      * intros (_ & _ & _ & _ & [? | (t & [= <-] & ?)]); congruence.
  - destruct (decide (e = e0)) as [->|Hne]; [apply Hhandle; [by left | done]|].
    split.
    + case_bool_decide; [done|]. intros [= <-]. done.
    + intros (_ & _ & _ & _ & [? | (t & ? & ?)]); congruence.
Qed.

(** X3.  A read changes nothing but the cache entry of its own path: files,
    environment, device index and the other entries stay, and the entry of
    the path is either as before or the value just returned. *)
Theorem read_touches_own_entry file_path st r st' :
  _read_json_file file_path st = (r, st') →
  fs st' = fs st ∧ environ st' = environ st ∧
  _device_index (self st') = _device_index (self st) ∧
  (∀ other, other ≠ file_path →
            _config_cache (self st') !! other = _config_cache (self st) !! other) ∧
  (_config_cache (self st') !! file_path = _config_cache (self st) !! file_path ∨
   ∃ data, r = Ok data ∧ _config_cache (self st') !! file_path = Some data).
Proof.
  rewrite read_cases.
  destruct (_config_cache (self st) !! file_path) as [cached|] eqn:Hc.
  { intros [= <- <-]. rewrite Hc. repeat split; auto. }
  cbv zeta.
  assert (∀ e, (if bool_decide (e = JSONDecodeError ∨ e = FileNotFoundError)
                then (Ok (if decide (file_path = mobile_devices_path (self st))
                          then PList [] else PDict []), st)
                else (Raise e, st)) = (r, st') → st' = st) as Hsame.
  { intros e. destruct (bool_decide _); by intros [= _ <-]. }
  destruct (fs_open_r file_path (fs st)) as [text|e] eqn:Ho.
  - destruct (json_load text) as [data|e] eqn:Hj.
    + intros [= <- <-]. simpl. repeat split.
      * intros other Hne. by apply lookup_insert_ne.
      * right. exists data. split; [done | apply lookup_insert_eq].
    + intros Hr. rewrite (Hsame _ Hr), Hc. repeat split; auto.
  - intros Hr. rewrite (Hsame _ Hr), Hc. repeat split; auto.
Qed.

(** X4.  A write returns a boolean and never raises.  When the file cannot
    be opened for writing it returns [False] and has changed nothing; when
    the encoder raises it returns [False] and the cache entry is as it was;
    and when it returns [True] the file was opened, the encoder finished, the
    file holds the text the encoder produced and the cache holds the
    value. *)
Theorem write_outcome file_path data st :
  ∃ ok st',
    _write_json_file file_path data st = (Ok ok, st') ∧
    ((∃ e, fs_open_w file_path (fs st) = Raise e) → ok = false ∧ st' = st) ∧
    ((∃ e, (json_dump data).2 = Some e) →
     ok = false ∧
     _config_cache (self st') !! file_path = _config_cache (self st) !! file_path) ∧
    (ok = true →
     (∃ f, fs_open_w file_path (fs st) = Ok f) ∧
     (json_dump data).2 = None ∧
     fs_files (fs st') !! file_path = Some (json_dump data).1 ∧
     _config_cache (self st') !! file_path = Some data).
Proof.
  pose proof (write_cases file_path data st) as Hw.
  destruct (fs_open_w file_path (fs st)) as [f|e] eqn:Ho; simpl in Hw.
  - apply fs_open_w_Ok in Ho as (-> & _).
    destruct (json_dump data).2 as [e|] eqn:Hd.
    + eexists _, _. split; [exact Hw|]. split; [by intros [? ?]|]. split; [done|done].
    + eexists _, _. split; [exact Hw|]. split; [by intros [? ?]|].
      split; [by intros [? ?]|]. intros _.
      split; [eauto|]. split; [done|]. simpl. split.
      * rewrite lookup_insert_eq. simpl. by rewrite lookup_insert_eq.
      * apply lookup_insert_eq.
  - eexists _, _. split; [exact Hw|]. split; [done|]. split; [|done].
    intros _. done.
Qed.

End MoreCache.

(** ** The device index, further *)

Section MoreDevices.
Context `{PyLib}.

(** A read does not look at the device index. *)
Lemma read_index_commute file_path ix st r st' :
  _read_json_file file_path st = (r, st') →
  _read_json_file file_path (set_device_index ix st) = (r, set_device_index ix st').
Proof.
  rewrite !read_cases. simpl.
  destruct (_config_cache (self st) !! file_path); [by intros [= <- <-]|].
  destruct (fs_open_r file_path (fs st)) as [text|e].
  - destruct (json_load text) as [data|e]; [by intros [= <- <-]|].
    destruct (bool_decide _); by intros [= <- <-].
  - destruct (bool_decide _); by intros [= <- <-].
Qed.

Lemma lookup_with_index name st index r st1 :
  _device_index (self st) = Some index →
  get_mobile_devices st = (r, st1) →
  get_device_by_name name st
  = (match r with
     | Ok _ => Ok (index !! KStr name)
     | Raise e => Raise e
     end, st1).
Proof.
  intros Hix Hd.
  destruct (devices_frame _ _ _ Hd) as [c ->].
  unfold get_device_by_name. py_simpl. rewrite Hd.
  destruct r; simpl; [by rewrite Hix | done].
Qed.

(** X6.  Once the index is built, the list just read is not consulted: the
    lookup returns the index's entry for the name, whatever the device
    document holds by now, and raises only what reading the document
    raises. *)
Theorem built_index_answers name st index r st1 :
  _device_index (self st) = Some index →
  get_mobile_devices st = (r, st1) →
  get_device_by_name name st
  = (match r with
     | Ok _ => Ok (index !! KStr name)
     | Raise e => Raise e
     end, st1) ∧
  _device_index (self st1) = Some index.
Proof.
  intros Hix Hd. split; [by apply lookup_with_index|].
  destruct (devices_frame _ _ _ Hd) as [c ->]. done.
Qed.

(** X7.  A write does not refresh the device index: after the device
    document is written with success, a lookup still answers from the index
    built before the write. *)
Theorem write_keeps_index name data st st' index :
  _device_index (self st) = Some index →
  _write_json_file (mobile_devices_path (self st)) data st = (Ok true, st') →
  get_mobile_devices st' = (Ok data, st') ∧
  get_device_by_name name st' = (Ok (index !! KStr name), st').
Proof.
  intros Hix Hw.
  pose proof (write_cases (mobile_devices_path (self st)) data st) as Hcases.
  rewrite Hw in Hcases.
  destruct (fs_open_w _ _) as [f|e]; simpl in Hcases; [|done].
  destruct (json_dump data).2; [done|]. injection Hcases as ->.
  set (st2 := set_cache _ _).
  assert (_device_index (self st2) = Some index) as Hix2 by exact Hix.
  assert (get_mobile_devices st2 = (Ok data, st2)) as Hd.
  { unfold get_mobile_devices. py_simpl. apply read_cached. simpl. apply lookup_insert_eq. }
  split; [exact Hd|]. by rewrite (lookup_with_index name st2 index _ _ Hix2 Hd).
Qed.

(** X8.  A lookup that returned leaves the index built, and the same lookup
    repeated right away returns the same answer without changing the
    state. *)
Theorem lookup_again name st r st' :
  get_device_by_name name st = (Ok r, st') →
  is_Some (_device_index (self st')) ∧
  get_device_by_name name st' = (Ok r, st').
Proof.
  intros Hrun.
  destruct (get_mobile_devices st) as [rd st1] eqn:Hd.
  pose proof Hd as Hread. unfold get_mobile_devices in Hread. py_simpl.
  destruct (devices_frame _ _ _ Hd) as [c Hst1].
  destruct (_device_index (self st)) as [index|] eqn:Hix.
  - rewrite (lookup_with_index name st index rd st1 Hix Hd) in Hrun.
    destruct rd as [devices|e]; [|done]. injection Hrun as <- <-.
    assert (_device_index (self st1) = Some index) as Hix1 by (by subst st1).
    split; [by rewrite Hix1|].
    assert (get_mobile_devices st1 = (Ok devices, st1)) as Hd1.
    { unfold get_mobile_devices. py_simpl.
      replace (mobile_devices_path (self st1)) with (mobile_devices_path (self st))
        by (by subst st1).
      by eapply read_repeat. }
    by rewrite (lookup_with_index name st1 index _ _ Hix1 Hd1).
  - destruct rd as [devices|e].
    + destruct (py_iter devices) as [items|e] eqn:Hit.
      * rewrite (device_lookup_builds name st st1 devices items Hix Hd Hit) in Hrun.
        destruct (build_index items ∅) as [index|e]; [|done].
        injection Hrun as <- <-. split; [by eexists|].
        assert (get_mobile_devices (set_device_index (Some index) st1)
                = (Ok devices, set_device_index (Some index) st1)) as Hd1.
        { unfold get_mobile_devices. py_simpl.
          replace (mobile_devices_path (self st1)) with (mobile_devices_path (self st))
            by (by subst st1).
          apply read_index_commute. by eapply read_repeat. }
        by rewrite (lookup_with_index name (set_device_index (Some index) st1) index _ _
                      eq_refl Hd1).
      * exfalso. unfold get_device_by_name in Hrun. py_simpl.
        rewrite Hd in Hrun. simpl in Hrun.
        replace (_device_index (self st1)) with (@None (gmap pykey pyval)) in Hrun
          by (by subst st1).
        by rewrite Hit in Hrun.
    + exfalso. unfold get_device_by_name in Hrun. py_simpl.
      by rewrite Hd in Hrun.
Qed.

(** X9.  With no index, no cache entry and a device file that is missing or
    malformed, the lookup returns nothing and keeps an empty index, although
    the empty list itself is not cached: when the file is there later, the
    lookup still returns nothing. *)
Theorem missing_file_empty_index name st :
  _device_index (self st) = None →
  _config_cache (self st) !! mobile_devices_path (self st) = None →
  file_missing (mobile_devices_path (self st)) (fs st) ∨
  file_malformed (mobile_devices_path (self st)) (fs st) →
  get_device_by_name name st = (Ok None, set_device_index (Some ∅) st) ∧
  ∀ f' r st1 name',
    get_mobile_devices (set_fs f' (set_device_index (Some ∅) st)) = (Ok r, st1) →
    get_device_by_name name' (set_fs f' (set_device_index (Some ∅) st)) = (Ok None, st1).
Proof.
  intros Hix Hc Hbroken. split.
  - assert (get_mobile_devices st = (Ok (PList []), st)) as Hd.
    { unfold get_mobile_devices. py_simpl.
      rewrite (read_broken _ _ Hc Hbroken). by rewrite decide_True. }
    by rewrite (device_lookup_builds name st st (PList []) [] Hix Hd eq_refl).
  - intros f' r st1 name' Hd.
    by rewrite (lookup_with_index name' (set_fs f' (set_device_index (Some ∅) st)) ∅ _ _
                  eq_refl Hd).
Qed.

(** X10.  With no index, a device document that is not a list makes the
    lookup raise [TypeError]: a scalar cannot be iterated, and the keys of a
    dict or the characters of a string cannot be indexed by [name].  An empty
    dict gives an empty index and no result. *)
Theorem non_list_document name st devices st1 :
  _device_index (self st) = None →
  get_mobile_devices st = (Ok devices, st1) →
  (not_a_device_list devices = true →
   get_device_by_name name st = (Raise TypeError, st1)) ∧
  (devices = PDict [] →
   get_device_by_name name st = (Ok None, set_device_index (Some ∅) st1)).
Proof.
  intros Hix Hd. split.
  - intros Hnot.
    destruct devices as [| b | z | s | l | d]; try done.
    + unfold get_device_by_name. py_simpl. rewrite Hd. simpl.
      destruct (devices_frame _ _ _ Hd) as [c ->]. simpl. by rewrite Hix.
    + unfold get_device_by_name. py_simpl. rewrite Hd. simpl.
      destruct (devices_frame _ _ _ Hd) as [c ->]. simpl. by rewrite Hix.
    + unfold get_device_by_name. py_simpl. rewrite Hd. simpl.
      destruct (devices_frame _ _ _ Hd) as [c ->]. simpl. by rewrite Hix.
    + destruct s as [|a s]; [done|].
      by rewrite (device_lookup_builds name st st1 _ _ Hix Hd eq_refl).
    + destruct d as [|[k v] d]; [done|].
      by rewrite (device_lookup_builds name st st1 _ _ Hix Hd eq_refl).
  - intros ->. by rewrite (device_lookup_builds name st st1 _ _ Hix Hd eq_refl).
Qed.

End MoreDevices.

(** ** Invalidation, further *)

Section MoreInvalidate.

Lemma set_cache_same st : set_cache (_config_cache (self st)) st = st.
Proof. by destruct st as [[] ? ?]. Qed.

(** X11.  [invalidate_cache(path)] for a path that has no entry returns
    without raising and changes nothing, and either form of the call done
    twice leaves the state that one call leaves. *)
Theorem invalidate_absent_or_twice st :
  (∀ file_path,
     _config_cache (self st) !! file_path = None →
     invalidate_cache (Some file_path) st = (Ok (), st)) ∧
  (∀ file_path,
     after (invalidate_cache file_path) (after (invalidate_cache file_path) st)
     = after (invalidate_cache file_path) st).
Proof.
  split.
  - intros file_path Hc. unfold invalidate_cache, modify.
    by rewrite delete_id, set_cache_same.
  - intros [file_path|]; unfold after, invalidate_cache; py_simpl; [|done].
    by rewrite delete_delete_eq.
Qed.

End MoreInvalidate.

(** ** Environment settings, further *)

Section MoreEnv.

(** X12.  A save leaves the object and the process environment alone, so
    [get_env_settings] returns after it what it returned before it, whether
    the save succeeded or not. *)
Theorem save_keeps_env_settings settings st r st' :
  save_env_settings settings st = (r, st') →
  self st' = self st ∧ environ st' = environ st ∧
  result get_env_settings st' = result get_env_settings st.
Proof.
  rewrite save_env_cases.
  destruct (env_file_vars _ _); [|by intros [= <- <-]].
  destruct (fs_open_w _ _); by intros [= <- <-].
Qed.


(** X14.  In the file that a successful save writes, when no key and no
    value of the new values and of the defaults has a line break in it,
    every new key has its line with the new value, and every default key
    that the new values leave out has its line with the default: each is a
    line of the file as [for line in f] yields it. *)
Theorem save_writes_new_values settings st st' :
  save_env_settings settings st = (Ok true, st') →
  no_line_breaks settings →
  no_line_breaks (default_env_settings (self st)) →
  ∃ text,
    fs_files (fs st') !! env_file_path (self st) = Some text ∧
    (∀ key value, settings !! key = Some value → env_line key value ∈ readlines text) ∧
    (∀ key value,
       default_env_settings (self st) !! key = Some value → settings !! key = None →
       env_line key value ∈ readlines text).
Proof.
  intros Hsave Hs Hd.
  destruct (save_env_lines _ _ _ Hsave Hs Hd)
    as (existing & env_data & _ & Hdata & Hfile & _ & Hlines).
  exists (env_text env_data). split; [exact Hfile|]. rewrite Hlines.
  assert (∀ key value, env_data !! key = Some value →
            env_line key value
            ∈ map (λ key, env_line key (env_data !!! key)) (sorted (elements (dom env_data))))
    as Hline.
  { intros key value Hk. apply list_elem_of_In, in_map_iff. exists key. split.
    - by rewrite (lookup_total_correct _ _ _ Hk).
    - apply list_elem_of_In, sorted_keys_elem_of, elem_of_dom. by exists value. }
  split.
  - intros key value Hk. apply Hline. by rewrite Hdata, env_merge_lookup, Hk.
  - intros key value Hk Hnone. apply Hline. by rewrite Hdata, env_merge_lookup, Hnone, Hk.
Qed.

Lemma lstrip_by_keep p s :
  match s with
  | String c _ => p c
  | EmptyString => false
  end = false →
  lstrip_by p s = s.
Proof. destruct s; simpl; [done|]. by intros ->. Qed.

Lemma rstrip_by_keep p s :
  match String.rev s with
  | String c _ => p c
  | EmptyString => false
  end = false →
  rstrip_by p s = s.
Proof.
  intros Hs. unfold rstrip_by. by rewrite lstrip_by_keep, str_rev_involutive.
Qed.

(** The quotes that a save puts around a value are what the reading loop
    strips, when the value has none of its own at either end. *)
Lemma strip_added_quotes value :
  starts_with_quote value = false →
  starts_with_quote (String.rev value) = false →
  str_strip_chars [single_quote; double_quote]
    (String single_quote (value +:+ String single_quote ""))
  = value.
Proof.
  intros Hfront Hback. unfold str_strip_chars.
  change (λ c : ascii, bool_decide (c ∈ [single_quote; double_quote])) with is_quote.
  cbn [lstrip_by]. change (is_quote single_quote) with true. cbv iota.
  destruct value as [|a value]; [done|].
  rewrite (lstrip_by_keep is_quote (String a value +:+ String single_quote ""))
    by exact Hfront.
  rewrite rstrip_by_snoc. change (is_quote single_quote) with true. cbv iota.
  by apply rstrip_by_keep.
Qed.

Lemma read_env_lines_env_lines (env_data : gmap string string) keys : ∀ acc,
  (∀ key, key ∈ keys → env_key_ok key ∧ env_value_ok (env_data !!! key)) →
  read_env_lines acc (map (λ key, env_line key (env_data !!! key)) keys)
  = Ok (foldl (λ acc key, <[key := env_data !!! key]> acc) acc keys).
Proof.
  induction keys as [|key keys IH]; intros acc Hok; [done|].
  destruct (Hok key) as [(Hkeq & _ & Hksp) (_ & Hvf & Hvb)]; [by left|].
  cbn [map read_env_lines foldl].
  rewrite read_env_line_env_line, strip_added_quotes by done.
  apply IH. intros k Hk. apply Hok. by right.
Qed.

Lemma foldl_insert_lookup (env_data : gmap string string) keys : ∀ (acc : gmap string string) k,
  foldl (λ acc key, <[key := env_data !!! key]> acc) acc keys !! k
  = if decide (k ∈ keys) then Some (env_data !!! k) else acc !! k.
Proof.
  induction keys as [|key keys IH]; intros acc k.
  - destruct (decide (k ∈ [])) as [Hin|]; [by apply elem_of_nil in Hin | done].
  - cbn [foldl]. rewrite IH.
    destruct (decide (k ∈ keys)) as [Hr|Hr], (decide (k ∈ key :: keys)) as [Hk|Hk].
    + done.
    + exfalso. apply Hk. by right.
    + apply elem_of_cons in Hk as [->|Hk]; [apply lookup_insert_eq | done].
    + apply lookup_insert_ne. intros ->. apply Hk. by left.
Qed.

(** The text written for a dict is read back as that dict. *)
Lemma env_text_read_back (env_data : gmap string string) :
  map_Forall (λ key value, env_key_ok key ∧ env_value_ok value) env_data →
  read_env_lines ∅ (readlines (env_text env_data)) = Ok env_data.
Proof.
  intros Hok. unfold env_text.
  assert (∀ key, key ∈ sorted (elements (dom env_data)) →
                 env_key_ok key ∧ env_value_ok (env_data !!! key)) as Hkeys.
  { intros key [value Hv]%sorted_keys_elem_of%elem_of_dom.
    rewrite (lookup_total_correct _ _ _ Hv). by apply (Hok key value). }
  rewrite readlines_env_lines, read_env_lines_env_lines; [|done|].
  2:{ intros key Hin. destruct (Hkeys key Hin) as [(_ & [? _] & _) ([? _] & _)]. done. }
  f_equal. apply map_eq. intros k. rewrite foldl_insert_lookup.
  destruct (decide (k ∈ sorted (elements (dom env_data)))) as [Hin|Hout].
  - apply sorted_keys_elem_of, elem_of_dom in Hin as [value Hv].
    by rewrite (lookup_total_correct _ _ _ Hv).
  - rewrite lookup_empty. symmetry. apply not_elem_of_dom.
    intros Hd. apply Hout. by apply sorted_keys_elem_of.
Qed.

(** X15.  What a successful save writes is what the next reading of the
    file collects, provided that no key has an equals sign, a line break or
    whitespace in front, and no value has a line break or a quote character
    at either end. *)
Theorem save_then_read_back settings st st' existing :
  save_env_settings settings st = (Ok true, st') →
  env_file_vars (env_file_path (self st)) (fs st) = Ok existing →
  map_Forall (λ key value, env_key_ok key ∧ env_value_ok value)
    (dict_update existing (dict_merge (default_env_settings (self st)) settings)) →
  env_file_vars (env_file_path (self st')) (fs st')
  = Ok (dict_update existing (dict_merge (default_env_settings (self st)) settings)).
Proof.
  rewrite save_env_cases. intros Hsave Hvars Hok. rewrite Hvars in Hsave.
  destruct (fs_open_w _ _) as [f|e] eqn:Hw; [|done]. injection Hsave as <-.
  apply fs_open_w_Ok in Hw as (-> & Hden & Hbelow & Hdir).
  unfold env_file_vars, path_exists. simpl.
  rewrite lookup_insert_eq, bool_decide_eq_true_2 by eauto. simpl.
  erewrite fs_open_r_file;
    [by apply env_text_read_back | done | | done | simpl; apply lookup_insert_eq].
  by rewrite !below_file_insert.
Qed.

(** X16.  The line that a save writes for a key and a value without a line
    break, the key without an equals sign and without whitespace in front,
    is read back as one line, under that key and with the value stripped of
    quote characters at both ends: a value that has a quote of its own at an
    end is read back shorter than it was written. *)
Theorem saved_line_read_back env_data key value :
  str_contains equals_sign key = false →
  starts_with_space key = false →
  no_line_break key →
  no_line_break value →
  readlines (env_line key value) = [env_line key value] ∧
  read_env_lines env_data (readlines (env_line key value))
  = Ok (<[key := str_strip_chars [single_quote; double_quote] value]> env_data).
Proof.
  intros Heq Hsp [Hknl _] [Hvnl _].
  assert (readlines (env_line key value) = [env_line key value]) as Hlines.
  { rewrite env_line_split at 1. rewrite readlines_line; [by rewrite <- env_line_split|].
    rewrite !str_contains_app, Hknl, Hvnl. reflexivity. }
  split; [done|]. rewrite Hlines. cbn [read_env_lines].
  rewrite read_env_line_env_line by done. do 2 f_equal.
  unfold str_strip_chars.
  change (λ c : ascii, bool_decide (c ∈ [single_quote; double_quote])) with is_quote.
  cbn [lstrip_by]. change (is_quote single_quote) with true. cbv iota.
  assert (∀ s, rstrip_by is_quote (lstrip_by is_quote (s +:+ String single_quote ""))
               = rstrip_by is_quote (lstrip_by is_quote s)) as Hs.
  { clear. induction s as [|a s IH]; [done|].
    rewrite str_app_cons. cbn [lstrip_by]. destruct (is_quote a); [exact IH|].
    rewrite <- str_app_cons, rstrip_by_snoc. done. }
  apply Hs.
Qed.

(** X17.  No text makes the reading loop of [save_env_settings] fail: a
    line without an equals sign is skipped, and a line with one always
    splits in two, so the keys collected are exactly the parts before the
    first equals sign of the stripped lines that have one. *)
Theorem env_reading_never_fails text :
  ∃ vars,
    read_env_lines ∅ (readlines text) = Ok vars ∧
    ∀ key, key ∈ dom vars ↔
           ∃ line value, line ∈ readlines text ∧
                         str_contains equals_sign line = true ∧
                         str_split1 equals_sign (str_strip line) = [key; value].
Proof.
  destruct (read_env_lines_total (readlines text) ∅) as [vars Hvars].
  exists vars. split; [done|]. intros key.
  rewrite (read_env_lines_keys _ _ _ Hvars key), dom_empty_L. set_solver.
Qed.

End MoreEnv.

(** ** Through the file *)

Section ThroughFile.
Context `{PyLib}.


End ThroughFile.

Section Layout.

(** X19.  The five paths that [__init__] derives from a configuration
    directory are pairwise different, whatever the directory: no two
    documents share a file or a cache entry. *)
Theorem paths_distinct dir :
  NoDup [mobile_devices_path (new_manager dir);
         telegram_entities_path (new_manager dir);
         env_file_path (new_manager dir);
         example_env_file (new_manager dir);
         sessions_dir (new_manager dir)].
Proof.
  simpl. unfold path_join.
  repeat (constructor;
          [rewrite ?elem_of_cons, elem_of_nil;
           intros Hin; repeat destruct Hin as [Hin|Hin]; try done;
           by apply app_inj_tail in Hin as [_ ?] |]).
  constructor.
Qed.

End Layout.

(** * Further concrete runs *)

Lemma read_again_witness :
  _read_json_file devices_json (sample_state (PList two_devices) None)
  = (Ok (PList two_devices),
     after (_read_json_file devices_json) (sample_state (PList two_devices) None)) ∧
  _read_json_file devices_json
    (after (_read_json_file devices_json) (sample_state (PList two_devices) None))
  = (Ok (PList two_devices),
     after (_read_json_file devices_json) (sample_state (PList two_devices) None)).
Proof.
  assert (_read_json_file devices_json (sample_state (PList two_devices) None)
          = (Ok (PList two_devices),
             after (_read_json_file devices_json) (sample_state (PList two_devices) None)))
    as Hread by (apply run_eq; vm_compute; reflexivity).
  split; [exact Hread|]. exact (read_again _ _ _ _ Hread).
Defined.

Lemma read_raises_witness :
  _read_json_file devices_json locked_uncached_state
  = (Raise PermissionError, after (_read_json_file devices_json) locked_uncached_state) ∧
  after (_read_json_file devices_json) locked_uncached_state = locked_uncached_state ∧
  _read_json_file devices_json config_is_file_state
  = (Raise NotADirectoryError, config_is_file_state).
Proof.
  assert (_read_json_file devices_json locked_uncached_state
          = (Raise PermissionError,
             after (_read_json_file devices_json) locked_uncached_state))
    as Hread by (apply run_eq; vm_compute; reflexivity).
  split; [exact Hread|]. split.
  - by destruct (proj1 (read_raises _ _ _ _) Hread) as (_ & _ & Hsame & _).
  - apply (proj2 (read_raises devices_json config_is_file_state NotADirectoryError
                    config_is_file_state)).
    split; [discriminate|]. split; [discriminate|]. split; [reflexivity|].
    split; [reflexivity|]. left. vm_compute. reflexivity.
Defined.

Lemma read_touches_own_entry_witness :
  _read_json_file devices_json (sample_state (PList two_devices) None)
  = (Ok (PList two_devices),
     after (_read_json_file devices_json) (sample_state (PList two_devices) None)) ∧
  fs (after (_read_json_file devices_json) (sample_state (PList two_devices) None))
  = fs (sample_state (PList two_devices) None) ∧
  _config_cache
    (self (after (_read_json_file devices_json) (sample_state (PList two_devices) None)))
    !! entities_json
  = _config_cache (self (sample_state (PList two_devices) None)) !! entities_json.
Proof.
  assert (_read_json_file devices_json (sample_state (PList two_devices) None)
          = (Ok (PList two_devices),
             after (_read_json_file devices_json) (sample_state (PList two_devices) None)))
    as Hread by (apply run_eq; vm_compute; reflexivity).
  split; [exact Hread|].
  destruct (read_touches_own_entry _ _ _ _ Hread) as (Hfs & _ & _ & Hother & _).
  split; [exact Hfs|]. apply Hother. discriminate.
Defined.

Lemma built_index_answers_witness :
  get_mobile_devices indexed_state
  = (Ok (PList two_devices), after get_mobile_devices indexed_state) ∧
  result (get_device_by_name "B") indexed_state = Ok (Some (device (PStr "B") 9)) ∧
  result (get_device_by_name "A") indexed_state = Ok None.
Proof.
  assert (get_mobile_devices indexed_state
          = (Ok (PList two_devices), after get_mobile_devices indexed_state)) as Hdevices
    by (apply run_eq; vm_compute; reflexivity).
  split; [exact Hdevices|]. split.
  - destruct (built_index_answers "B" indexed_state _ _ _ eq_refl Hdevices) as [Hrun _].
    unfold result. rewrite Hrun. simpl. by rewrite lookup_singleton_eq.
  - destruct (built_index_answers "A" indexed_state _ _ _ eq_refl Hdevices) as [Hrun _].
    unfold result. rewrite Hrun. simpl. by rewrite lookup_singleton_ne.
Defined.

Lemma write_keeps_index_witness :
  _write_json_file (mobile_devices_path (self indexed_state)) (PList [device (PStr "B") 7])
    indexed_state
  = (Ok true,
     after (_write_json_file (mobile_devices_path (self indexed_state))
              (PList [device (PStr "B") 7])) indexed_state) ∧
  result (get_device_by_name "B")
    (after (_write_json_file (mobile_devices_path (self indexed_state))
              (PList [device (PStr "B") 7])) indexed_state)
  = Ok (Some (device (PStr "B") 9)).
Proof.
  assert (_write_json_file (mobile_devices_path (self indexed_state))
            (PList [device (PStr "B") 7]) indexed_state
          = (Ok true,
             after (_write_json_file (mobile_devices_path (self indexed_state))
                      (PList [device (PStr "B") 7])) indexed_state)) as Hwrite
    by (apply run_eq; vm_compute; reflexivity).
  split; [exact Hwrite|].
  destruct (write_keeps_index "B" _ indexed_state _ _ eq_refl Hwrite) as [_ Hrun].
  unfold result. rewrite Hrun. simpl. by rewrite lookup_singleton_eq.
Defined.

Lemma lookup_again_witness :
  get_device_by_name "B" (sample_state (PList two_devices) None)
  = (Ok (Some (device (PStr "B") 2)),
     after (get_device_by_name "B") (sample_state (PList two_devices) None)) ∧
  get_device_by_name "B"
    (after (get_device_by_name "B") (sample_state (PList two_devices) None))
  = (Ok (Some (device (PStr "B") 2)),
     after (get_device_by_name "B") (sample_state (PList two_devices) None)).
Proof.
  assert (get_device_by_name "B" (sample_state (PList two_devices) None)
          = (Ok (Some (device (PStr "B") 2)),
             after (get_device_by_name "B") (sample_state (PList two_devices) None)))
    as Hrun by (apply run_eq; vm_compute; reflexivity).
  split; [exact Hrun|]. by destruct (lookup_again _ _ _ _ Hrun) as [_ Hagain].
Defined.

Lemma missing_file_empty_index_witness :
  file_missing (mobile_devices_path (self fresh_state)) (fs fresh_state) ∧
  get_device_by_name "A" fresh_state = (Ok None, set_device_index (Some ∅) fresh_state) ∧
  result (get_device_by_name "A")
    (set_fs (sample_fs (PList two_devices) None) (set_device_index (Some ∅) fresh_state))
  = Ok None.
Proof.
  assert (file_missing (mobile_devices_path (self fresh_state)) (fs fresh_state)) as Hmissing
    by (vm_compute; reflexivity).
  split; [exact Hmissing|].
  destruct (missing_file_empty_index "A" fresh_state eq_refl) as [Hrun Hlater].
  - vm_compute. reflexivity.
  - by left.
  - split; [exact Hrun|].
    assert (get_mobile_devices
              (set_fs (sample_fs (PList two_devices) None)
                 (set_device_index (Some ∅) fresh_state))
            = (Ok (PList two_devices),
               after get_mobile_devices
                 (set_fs (sample_fs (PList two_devices) None)
                    (set_device_index (Some ∅) fresh_state)))) as Hdevices
      by (apply run_eq; vm_compute; reflexivity).
    unfold result. by rewrite (Hlater _ _ _ "A" Hdevices).
Defined.

Lemma non_list_document_witness :
  get_mobile_devices (sample_state (PDict [("A", PInt 1)]) None)
  = (Ok (PDict [("A", PInt 1)]),
     after get_mobile_devices (sample_state (PDict [("A", PInt 1)]) None)) ∧
  result (get_device_by_name "A") (sample_state (PDict [("A", PInt 1)]) None)
  = Raise TypeError.
Proof.
  assert (get_mobile_devices (sample_state (PDict [("A", PInt 1)]) None)
          = (Ok (PDict [("A", PInt 1)]),
             after get_mobile_devices (sample_state (PDict [("A", PInt 1)]) None)))
    as Hdevices by (apply run_eq; vm_compute; reflexivity).
  split; [exact Hdevices|].
  destruct (non_list_document "A" (sample_state (PDict [("A", PInt 1)]) None) _ _
              eq_refl Hdevices) as [Hraise _].
  unfold result. by rewrite (Hraise eq_refl).
Defined.

Lemma save_keeps_env_settings_witness :
  save_env_settings {[ "TELEGRAM_API_ID" := "42" ]} (sample_state (PList []) None)
  = (Ok true,
     after (save_env_settings {[ "TELEGRAM_API_ID" := "42" ]}) (sample_state (PList []) None)) ∧
  result get_env_settings
    (after (save_env_settings {[ "TELEGRAM_API_ID" := "42" ]}) (sample_state (PList []) None))
  = result get_env_settings (sample_state (PList []) None).
Proof.
  assert (save_env_settings {[ "TELEGRAM_API_ID" := "42" ]} (sample_state (PList []) None)
          = (Ok true,
             after (save_env_settings {[ "TELEGRAM_API_ID" := "42" ]})
               (sample_state (PList []) None))) as Hsave
    by (apply run_eq; vm_compute; reflexivity).
  split; [exact Hsave|].
  by destruct (save_keeps_env_settings _ _ _ _ Hsave) as (_ & _ & Hsame).
Defined.

Lemma save_writes_new_values_witness :
  save_env_settings {[ "BAR" := "2" ]} (sample_state (PList []) (Some (dotenv_line "FOO='1'")))
  = (Ok true,
     after (save_env_settings {[ "BAR" := "2" ]})
       (sample_state (PList []) (Some (dotenv_line "FOO='1'")))) ∧
  ∃ text,
    fs_files (fs (after (save_env_settings {[ "BAR" := "2" ]})
                    (sample_state (PList []) (Some (dotenv_line "FOO='1'")))))
      !! dotenv_file
    = Some text ∧
    dotenv_line "BAR='2'" ∈ readlines text ∧
    dotenv_line "TELEGRAM_API_ID=''" ∈ readlines text.
Proof.
  assert (save_env_settings {[ "BAR" := "2" ]}
            (sample_state (PList []) (Some (dotenv_line "FOO='1'")))
          = (Ok true,
             after (save_env_settings {[ "BAR" := "2" ]})
               (sample_state (PList []) (Some (dotenv_line "FOO='1'"))))) as Hsave
    by (apply run_eq; vm_compute; reflexivity).
  split; [exact Hsave|].
  destruct (save_writes_new_values _ _ _ Hsave) as (text & Hfile & Hnew & Hdefault).
  { apply map_Forall_singleton. repeat split; reflexivity. }
  { apply map_Forall_singleton. repeat split; reflexivity. }
  exists text. split; [exact Hfile|]. split.
  - apply (Hnew "BAR" "2"), lookup_singleton_eq.
  - apply (Hdefault "TELEGRAM_API_ID" ""); [apply lookup_singleton_eq|].
    by apply lookup_singleton_ne.
Defined.

Lemma save_then_read_back_witness :
  save_env_settings {[ "BAR" := "2" ]} (sample_state (PList []) None)
  = (Ok true, after (save_env_settings {[ "BAR" := "2" ]}) (sample_state (PList []) None)) ∧
  env_file_vars dotenv_file
    (fs (after (save_env_settings {[ "BAR" := "2" ]}) (sample_state (PList []) None)))
  = Ok (dict_update ∅ (dict_merge {[ "TELEGRAM_API_ID" := "" ]} {[ "BAR" := "2" ]})).
Proof.
  assert (save_env_settings {[ "BAR" := "2" ]} (sample_state (PList []) None)
          = (Ok true,
             after (save_env_settings {[ "BAR" := "2" ]}) (sample_state (PList []) None)))
    as Hsave by (apply run_eq; vm_compute; reflexivity).
  split; [exact Hsave|].
  apply (save_then_read_back _ _ _ ∅ Hsave).
  - vm_compute. reflexivity.
  - apply map_Forall_lookup. intros key value. rewrite env_merge_lookup.
    change (default_env_settings (self (sample_state (PList []) None)))
      with ({[ "TELEGRAM_API_ID" := "" ]} : gmap string string).
    destruct (decide (key = "BAR")) as [->|Hbar].
    + rewrite lookup_singleton_eq. intros [= <-].
      unfold env_key_ok, env_value_ok, no_line_break. repeat split; reflexivity.
    + rewrite lookup_singleton_ne by done.
      destruct (decide (key = "TELEGRAM_API_ID")) as [->|Hid].
      * rewrite lookup_singleton_eq. intros [= <-].
        unfold env_key_ok, env_value_ok, no_line_break. repeat split; reflexivity.
      * by rewrite lookup_singleton_ne, lookup_empty.
Defined.

(** The value [42'], with a quote at its end, is read back as [42]. *)
Lemma saved_line_read_back_witness :
  readlines (env_line "FOO" (String "4" (String "2" (String single_quote ""))))
  = [env_line "FOO" (String "4" (String "2" (String single_quote "")))] ∧
  read_env_lines ∅
    (readlines (env_line "FOO" (String "4" (String "2" (String single_quote "")))))
  = Ok (<["FOO" := str_strip_chars [single_quote; double_quote]
                     (String "4" (String "2" (String single_quote "")))]> ∅) ∧
  str_strip_chars [single_quote; double_quote]
    (String "4" (String "2" (String single_quote ""))) = "42".
Proof.
  destruct (saved_line_read_back ∅ "FOO" (String "4" (String "2" (String single_quote ""))))
    as [Hlines Hread]; [reflexivity | reflexivity | by split | by split |].
  split; [exact Hlines|]. split; [exact Hread|]. vm_compute. reflexivity.
Defined.

